(** * immiplanner-ai: the Gemini service (resume ingestion and profile analysis)

    A shallow embedding of the service module of the repository
    ([getAIClient], [fileToGenerativePart], [parseResume], [analyzeProfile])
    into Rocq.

    - JavaScript values are the inductive [JSValue]; objects are finite maps
      from property names to values, numbers are IEEE binary64 floats.
    - Effects are explicit: a computation maps the trace of observable events
      so far (console output, file reads, model requests) to the extended
      trace and a completion: a returned value, a thrown error, or a
      suspension on a promise that is never settled.  An [async] function is
      its body; its promise is fulfilled, rejected or left pending according
      to that completion.
    - Everything outside the module (the build-time credential, the browser's
      [FileReader], the model endpoint, [JSON.parse]) is a field of [World],
      and every theorem quantifies over all worlds. *)

From Stdlib Require Import ZArith Ascii String PrimFloat FloatOps SpecFloat.
From stdpp Require Import base strings gmap list pretty.

Local Open Scope string_scope.
Set Warnings "-register-all".

(** ** JavaScript values *)

Module JS.

(** A thrown [Error] object: its [name] and its [message]. *)
Record JSError := mkError { error_name : string; error_message : string }.

(** [new Error(message)]. *)
Definition Error (message : string) : JSError := mkError "Error" message.

(** The [TypeError] the engine raises for a property read on [null] or
    [undefined]; the message text is V8's. *)
Definition TypeError_read (base key : string) : JSError :=
  mkError "TypeError"
    ("Cannot read properties of " +:+ base +:+ " (reading '" +:+ key +:+ "')").

Inductive JSValue :=
| JUndefined
| JNull
| JBool (b : bool)
| JNum (x : float)
| JStr (s : string)
| JArr (items : list JSValue)
| JObj (props : gmap string JSValue).

(** ToBoolean: [undefined], [null], [false], [+0], [-0], [NaN] and the empty
    string are falsy, every other value (all arrays and objects) is truthy. *)
Definition truthy (v : JSValue) : bool :=
  match v with
  | JUndefined | JNull => false
  | JBool b => b
  | JNum x => negb (is_zero x || is_nan x)
  | JStr s => negb (String.eqb s "")
  | JArr _ | JObj _ => true
  end.

(** [a || b]. *)
Definition or_else (a b : JSValue) : JSValue := if truthy a then a else b.

(** Truthiness of a value of type [string | undefined]. *)
Definition truthy_string (s : option string) : option string :=
  match s with
  | Some s' => if String.eqb s' "" then None else Some s'
  | None => None
  end.

(** [v.key] for a key that is neither an index, nor [length], nor a member of
    a built-in prototype (the keys this program reads are of that kind): the
    own property of an object, a [TypeError] on [null] and [undefined],
    [undefined] on every other value. *)
Definition getProp (v : JSValue) (key : string) : JSError + JSValue :=
  match v with
  | JUndefined => inl (TypeError_read "undefined" key)
  | JNull => inl (TypeError_read "null" key)
  | JObj props => inr (default JUndefined (props !! key))
  | JBool _ | JNum _ | JStr _ | JArr _ => inr JUndefined
  end.

(** The integer a finite float denotes, when it is one of magnitude at most
    2^53 (there every integer is a float and prints as its digits). *)
Definition safe_integer (s : bool) (m : positive) (e : Z) : option Z :=
  let z :=
    if (0 <=? e)%Z then Some (Z.pos m * 2 ^ e)%Z
    else if (Z.pos m mod 2 ^ (- e) =? 0)%Z then Some (Z.pos m / 2 ^ (- e))%Z
    else None in
  match z with
  | Some z => if (z <=? 2 ^ 53)%Z then Some (if s then (- z)%Z else z) else None
  | None => None
  end.

(** Number::toString, as a template literal applies it.  The special values
    and the integers of magnitude at most 2^53 are printed here; the digits
    of every other number (fractions, large magnitudes) are the platform's
    shortest round-trip digits, taken as [other]. *)
Definition Number_toString (other : float → string) (x : float) : string :=
  match Prim2SF x with
  | S754_nan => "NaN"
  | S754_infinity false => "Infinity"
  | S754_infinity true => "-Infinity"
  | S754_zero _ => "0"
  | S754_finite s m e =>
      match safe_integer s m e with
      | Some z => pretty z
      | None => other x
      end
  end.

(** [s.split(',')]: the pieces of [s] between commas. *)
Fixpoint split_comma (s : string) : list string :=
  match s with
  | EmptyString => [EmptyString]
  | String c rest =>
      if Ascii.eqb c ","%char then EmptyString :: split_comma rest
      else match split_comma rest with
           | piece :: pieces => String c piece :: pieces
           | [] => [String c EmptyString]
           end
  end.

End JS.
Export JS.

(** ** The data model *)

(** Modelled from the spec: the language-test results of a profile (a test
    type, the overall score and the four sub-scores).  The interfaces of
    [types.ts] are not under src/; the fields are the ones the service
    reads. *)
Record LanguageDetails := {
  testType : string;
  overallScore : float;
  reading : float;
  writing : float;
  listening : float;
  speaking : float;
}.

(** Modelled from the spec: the interface [UserProfile] of [types.ts], which
    is not under src/: the demographic and qualification attributes the
    service reads, and the optional English and French test results. *)
Record UserProfile := {
  name : string;
  age : float;
  countryOfResidence : string;
  educationLevel : string;
  fieldOfStudy : string;
  workExperienceYears : float;
  savings : float;
  settlementFunds : float;
  languageDetails : option LanguageDetails;
  frenchDetails : option LanguageDetails;
}.

(** The enum [UserType] of [types.ts] is not under src/ either: the service
    only compares a value with the member [UserType.Student], so it is taken
    as any type with decidable equality and a member [Student]. *)
Class UserTypeEnum (UserType : Type) := {
  Student : UserType;
  UserType_eq_dec :: EqDecision UserType;
}.

(** A browser [File]: its declared MIME type and its bytes. *)
Record File := { file_name : string; file_type : string; file_bytes : string }.

(** A part of a request's contents: [{ inlineData: { data, mimeType } }]
    ([data] is [undefined] when absent) or [{ text }]. *)
Inductive Part :=
| InlineData (data : option string) (mimeType : string)
| TextPart (text : string).

Inductive Contents :=
| ContentsText (text : string)
| ContentsParts (parts : list Part).

(** The members of the client library's [Type] the schemas use. *)
Inductive SchemaType := OBJECT | ARRAY | STRING | NUMBER.

(** A response schema: [{ type, items?, properties?, required? }]. *)
Inductive Schema :=
| mkSchema (type : SchemaType) (items : option Schema)
    (properties : option (list (string * Schema)))
    (required : option (list string)).

Definition schema (type : SchemaType) : Schema := mkSchema type None None None.

Record Config := { responseMimeType : string; responseSchema : Schema }.

Record Request := { model : string; contents : Contents; config : Config }.

(** What a request's response exposes: [response.text]. *)
Record Response := { text : option string }.

(** [new GoogleGenerativeAI(apiKey)]. *)
Record Client := GoogleGenerativeAI { client_apiKey : string }.

(** ** The world outside the module *)

Record World := {
  (** [process.env.REACT_APP_GEMINI_API_KEY], fixed at build time. *)
  REACT_APP_GEMINI_API_KEY : option string;
  (** [new FileReader()] and [reader.readAsDataURL(file)], run by the
      executor of the encoder's promise: they throw, or [loadend] fires with
      [reader.result] being the data URL, or [null] when the read failed. *)
  FileReader_result : File → JSError + option string;
  (** [await ai.models.generateContent(request)]: the call throws, or its
      promise is fulfilled with a response (the client's promise is taken to
      settle). *)
  generateContent : Client → Request → JSError + Response;
  (** Whether a throwing [ai.models.generateContent(request)] had made its
      request: [false] when the call expression throws before the call (a
      client without a [models] member), [true] when the call itself throws
      or its promise is rejected.  A response always follows a request. *)
  throws_after_request : Client → Request → bool;
  (** [JSON.parse(text)]: a [SyntaxError], or the parsed value. *)
  JSON_parse : string → JSError + JSValue;
  (** The digits of the numbers [Number_toString] leaves to the platform. *)
  Number_digits : float → string;
}.

(** ** Effects *)

Inductive LogArg := LogStr (s : string) | LogErr (e : JSError).

(** The observable events: a [console.error] line, a file read started by
    [readAsDataURL], and a request made by
    [ai.models.generateContent(request)]. *)
Inductive Event :=
| ConsoleError (args : list LogArg)
| ReadAsDataURL (file : File)
| GenerateContent (request : Request).

Inductive Completion (A : Type) :=
| Return (a : A)
| Throw (e : JSError)
| Pending.
Arguments Return {A} a.
Arguments Throw {A} e.
Arguments Pending {A}.

Definition Eff (A : Type) : Type := list Event → list Event * Completion A.

Module Eff.

Definition ret {A} (a : A) : Eff A := λ t, (t, Return a).

Definition bind {A B} (m : Eff A) (k : A → Eff B) : Eff B :=
  λ t, match m t with
       | (t', Return a) => k a t'
       | (t', Throw e) => (t', Throw e)
       | (t', Pending) => (t', Pending)
       end.

Definition throw {A} (e : JSError) : Eff A := λ t, (t, Throw e).

(** An [await] of a promise that nobody settles. *)
Definition never {A} : Eff A := λ t, (t, Pending).

Definition emit (ev : Event) : Eff unit := λ t, ((t ++ [ev])%list, Return tt).

(** [try { body } catch (error) { handler }]: a thrown error enters the
    handler; a value or a suspension passes through. *)
Definition try_catch {A} (body : Eff A) (handler : JSError → Eff A) : Eff A :=
  λ t, match body t with
       | (t', Throw e) => handler e t'
       | r => r
       end.

(** The completion of an expression that throws or yields a value. *)
Definition lift {A} (r : JSError + A) : Eff A :=
  match r with
  | inl e => throw e
  | inr a => ret a
  end.

(** A call from the empty trace. *)
Definition run {A} (m : Eff A) : list Event * Completion A := m [].

End Eff.
Import Eff.

Declare Scope eff_scope.
Delimit Scope eff_scope with eff.
Notation "'let!' x ':=' m 'in' k" := (bind m (λ x, k))
  (at level 10, x name, m at level 100, k at level 200) : eff_scope.
Notation "m ';;' k" := (bind m (λ _, k))
  (at level 100, k at level 200, right associativity) : eff_scope.
Local Open Scope eff_scope.

Definition console_error (args : list LogArg) : Eff unit :=
  emit (ConsoleError args).

Definition LF : string := String "010"%char EmptyString.

(** Whether [ai.models.generateContent(request)] makes its request: always
    when a response comes back, and as the world says when the call
    throws. *)
Definition request_made (W : World) (ai : Client) (request : Request) : bool :=
  match generateContent W ai request with
  | inr _ => true
  | inl _ => throws_after_request W ai request
  end.

(** The event of the request, when it was made. *)
Definition request_event (W : World) (ai : Client) (request : Request)
  : list Event :=
  if request_made W ai request then [GenerateContent request] else [].

(** ** The service *)

Module GeminiService.
Section Service.

Variable W : World.
Context {UserType : Type} `{UserTypeEnum UserType}.

(** [`${x}`] for a number [x]. *)
Let num (x : float) : string := Number_toString (Number_digits W) x.

Definition getAIClient : Eff Client :=
  let apiKey := REACT_APP_GEMINI_API_KEY W in
  match truthy_string apiKey with
  | None =>
      console_error [LogStr "❌ Gemini API Key Missing!"] ;;
      throw (Error "Missing Gemini API Key")
  | Some apiKey => ret (GoogleGenerativeAI apiKey)
  end.

(** [await base64EncodedDataPromise].  An exception of the executor
    ([new FileReader()] or [readAsDataURL] throws) rejects the promise, and
    no read was started.  Otherwise the read is started, and the promise is
    resolved by the [onloadend] handler with [reader.result.split(',')[1]];
    when the result is [null] the handler throws before it calls [resolve],
    and the promise (created without a [reject]) is never settled. *)
Definition base64EncodedDataPromise (file : File) : Eff (option string) :=
  match FileReader_result W file with
  | inl e => throw e
  | inr (Some result) =>
      emit (ReadAsDataURL file) ;; ret (split_comma result !! 1%nat)
  | inr None => emit (ReadAsDataURL file) ;; never
  end.

Definition fileToGenerativePart (file : File) : Eff Part :=
  let! data := base64EncodedDataPromise file in
  ret (InlineData data (file_type file)).

(** [await ai.models.generateContent(request)]: the request is recorded when
    it was made, and the call throws or yields the response. *)
Definition models_generateContent (ai : Client) (request : Request)
  : Eff Response :=
  (if request_made W ai request then emit (GenerateContent request)
   else ret tt) ;;
  lift (generateContent W ai request).

Definition resume_prompt : string :=
  LF +:+ "      You are an intelligent immigration resume parser..." +:+
  LF +:+ "      (rest of your original prompt remains same...)" +:+
  LF +:+ "    ".

Definition resume_schema : Schema :=
  mkSchema OBJECT None
    (Some [("name", schema STRING);
           ("country", schema STRING);
           ("educationLevel", schema STRING);
           ("fieldOfStudy", schema STRING);
           ("workExperienceYears", schema NUMBER);
           ("englishScore", schema NUMBER)])
    (Some ["name"; "educationLevel"; "fieldOfStudy"; "workExperienceYears"]).

Definition resume_request (filePart : Part) (prompt : string) : Request :=
  {| model := "gemini-2.5-flash";
     contents := ContentsParts [filePart; TextPart prompt];
     config := {| responseMimeType := "application/json";
                  responseSchema := resume_schema |} |}.

Definition parseResume (file : File) : Eff (gmap string JSValue) :=
  let! ai := getAIClient in
  try_catch
    (let! filePart := fileToGenerativePart file in
     let prompt := resume_prompt in
     let! response := models_generateContent ai (resume_request filePart prompt) in
     match truthy_string (text response) with
     | Some response_text =>
         let! data := lift (JSON_parse W response_text) in
         let! data_name := lift (getProp data "name") in
         let! data_country := lift (getProp data "country") in
         let! data_educationLevel := lift (getProp data "educationLevel") in
         let! data_fieldOfStudy := lift (getProp data "fieldOfStudy") in
         let! data_workExperienceYears :=
           lift (getProp data "workExperienceYears") in
         let! data_englishScore := lift (getProp data "englishScore") in
         ret (list_to_map
                [("name", data_name);
                 ("countryOfResidence", or_else data_country JUndefined);
                 ("educationLevel", data_educationLevel);
                 ("fieldOfStudy", data_fieldOfStudy);
                 ("workExperienceYears", data_workExperienceYears);
                 ("englishScore", data_englishScore)])
     | None => ret ∅
     end)
    (λ error,
       console_error [LogStr "Error parsing resume:"; LogErr error] ;;
       ret ∅).

Definition student_instructions : string :=
  LF +:+ "      CONTEXT: USER IS A STUDENT..." +:+
  LF +:+ "      (your original student logic here)" +:+
  LF +:+ "    ".

Definition worker_instructions : string :=
  LF +:+ "      CONTEXT: USER IS A SKILLED WORKER..." +:+
  LF +:+ "      (your original worker logic here)" +:+
  LF +:+ "    ".

Definition specificInstructions (userType : UserType) : string :=
  if decide (userType = Student) then student_instructions
  else worker_instructions.

Definition englishInfo (profile : UserProfile) : string :=
  match languageDetails profile with
  | Some lt =>
      testType lt +:+ " - Overall:" +:+ num (overallScore lt) +:+
      ", R:" +:+ num (reading lt) +:+ ", W:" +:+ num (writing lt) +:+
      ", L:" +:+ num (listening lt) +:+ ", S:" +:+ num (speaking lt)
  | None => "N/A"
  end.

Definition frenchInfo (profile : UserProfile) : string :=
  match frenchDetails profile with
  | Some fr =>
      if negb (String.eqb (testType fr) "None") then
        testType fr +:+ " - Overall:" +:+ num (overallScore fr) +:+
        ", R:" +:+ num (reading fr) +:+ ", W:" +:+ num (writing fr) +:+
        ", L:" +:+ num (listening fr) +:+ ", S:" +:+ num (speaking fr)
      else "None"
  | None => "None"
  end.

Definition commonPrompt (profile : UserProfile) : string :=
  LF +:+ "    Profile:" +:+
  LF +:+ "    Name: " +:+ name profile +:+
  LF +:+ "    Age: " +:+ num (age profile) +:+
  LF +:+ "    Country: " +:+ countryOfResidence profile +:+
  LF +:+ "    Education: " +:+ educationLevel profile +:+
  LF +:+ "    Work Experience: " +:+ num (workExperienceYears profile) +:+
  LF +:+ "    English: " +:+ englishInfo profile +:+
  LF +:+ "    French: " +:+ frenchInfo profile +:+
  LF +:+ "    Savings: " +:+ num (savings profile) +:+
  LF +:+ "    Settlement Funds: " +:+ num (settlementFunds profile) +:+
  LF +:+ "  ".

Definition analysis_contents (profile : UserProfile) (userType : UserType)
  : string :=
  LF +:+ "        " +:+ specificInstructions userType +:+
  LF +:+ "        " +:+ commonPrompt profile +:+
  LF +:+
  LF +:+ "        Produce structured JSON output..." +:+
  LF +:+ "        (your original schema rules unchanged)" +:+
  LF +:+ "      ".

Definition analysis_schema : Schema :=
  mkSchema OBJECT None
    (Some [("overallSuccessProbability", schema NUMBER);
           ("crsScorePrediction", schema NUMBER);
           ("riskFactors", mkSchema ARRAY (Some (schema STRING)) None None);
           ("strengths", mkSchema ARRAY (Some (schema STRING)) None None);
           ("assumptions", mkSchema ARRAY (Some (schema STRING)) None None);
           ("recommendedPathways", schema ARRAY);
           ("otherPathways", schema ARRAY);
           ("strategicAdvice", schema ARRAY);
           ("futureCrsPredictions", schema OBJECT)])
    None.

Definition analysis_request (profile : UserProfile) (userType : UserType)
  : Request :=
  {| model := "gemini-2.5-flash";
     contents := ContentsText (analysis_contents profile userType);
     config := {| responseMimeType := "application/json";
                  responseSchema := analysis_schema |} |}.

(** The object literal of the [catch] block. *)
Definition fallback : JSValue :=
  JObj (list_to_map
    [("overallSuccessProbability", JNum 72);
     ("crsScorePrediction", JNum 310);
     ("riskFactors", JArr [JStr "Missing language test"]);
     ("strengths", JArr [JStr "Good financial support"]);
     ("assumptions", JArr [JStr "Assumed CLB 5 for missing IELTS"]);
     ("recommendedPathways", JArr []);
     ("otherPathways", JArr []);
     ("strategicAdvice",
       JArr [JStr "Improve English score";
             JStr "Consider 2-year study leading to PGWP"]);
     ("futureCrsPredictions",
       JObj (list_to_map
         [("current", JNum 310);
          ("oneYearStudy", JNum 335);
          ("twoYearStudy", JNum 360);
          ("twoYearStudyPlusWork", JNum 470)]))]).

Definition analyzeProfile (profile : UserProfile) (userType : UserType)
  : Eff JSValue :=
  let! ai := getAIClient in
  try_catch
    (let! response :=
       models_generateContent ai (analysis_request profile userType) in
     match truthy_string (text response) with
     | Some response_text => lift (JSON_parse W response_text)
     | None => throw (Error "No response returned")
     end)
    (λ error,
       console_error [LogStr "Error analyzing profile:"; LogErr error] ;;
       ret fallback).

End Service.
End GeminiService.
Import GeminiService.

(** The model requests among the events of a trace. *)
Definition requests (t : list Event) : list Request :=
  omap (λ ev, match ev with GenerateContent r => Some r | _ => None end) t.

(** The list-valued fields of [AIAnalysisResult]. *)
Definition list_fields : list string :=
  ["riskFactors"; "strengths"; "assumptions"; "recommendedPathways";
   "otherPathways"; "strategicAdvice"].

(** [v] is an object on which every list field is present and holds an
    array (possibly empty). *)
Definition has_list_fields (v : JSValue) : bool :=
  match v with
  | JObj props =>
      forallb (λ key, match props !! key with
                      | Some (JArr _) => true
                      | _ => false
                      end) list_fields
  | _ => false
  end.

(** ** Sample worlds and inputs *)

Module Samples.

(** A [UserType] enum with the two members the spec names. *)
Inductive SampleUserType := SampleStudent | SampleSkilledWorker.

#[export] Instance SampleUserType_eq_dec : EqDecision SampleUserType.
Proof. solve_decision. Defined.

#[export] Instance SampleUserType_enum : UserTypeEnum SampleUserType :=
  {| Student := SampleStudent |}.

Definition DQ : string := String "034"%char EmptyString.
Definition quoted (s : string) : string := DQ +:+ s +:+ DQ.

(** The response text [{"name":"A","educationLevel":"B","fieldOfStudy":"C",
    "workExperienceYears":5}], without and with ["country":"Canada"]. *)
Definition resume_json : string :=
  "{" +:+ quoted "name" +:+ ":" +:+ quoted "A" +:+ "," +:+
  quoted "educationLevel" +:+ ":" +:+ quoted "B" +:+ "," +:+
  quoted "fieldOfStudy" +:+ ":" +:+ quoted "C" +:+ "," +:+
  quoted "workExperienceYears" +:+ ":5}".

Definition resume_json_canada : string :=
  "{" +:+ quoted "name" +:+ ":" +:+ quoted "A" +:+ "," +:+
  quoted "country" +:+ ":" +:+ quoted "Canada" +:+ "," +:+
  quoted "educationLevel" +:+ ":" +:+ quoted "B" +:+ "," +:+
  quoted "fieldOfStudy" +:+ ":" +:+ quoted "C" +:+ "," +:+
  quoted "workExperienceYears" +:+ ":5}".

Definition resume_data : gmap string JSValue :=
  list_to_map [("name", JStr "A"); ("educationLevel", JStr "B");
               ("fieldOfStudy", JStr "C"); ("workExperienceYears", JNum 5)].

(** [JSON.parse] on the texts the samples use: the two resume documents,
    [{}] and [null]; the samples parse no other text. *)
Definition sample_JSON_parse (text : string) : JSError + JSValue :=
  if decide (text = "{}") then inr (JObj ∅)
  else if decide (text = "null") then inr JNull
  else if decide (text = resume_json) then inr (JObj resume_data)
  else if decide (text = resume_json_canada)
       then inr (JObj (<["country" := JStr "Canada"]> resume_data))
  else inl (mkError "SyntaxError" "Unexpected token").

(** A world with the given credential, read result and model behaviour. *)
Definition sample_world (key : option string) (read : option string)
    (reply : JSError + Response) : World :=
  {| REACT_APP_GEMINI_API_KEY := key;
     FileReader_result := λ _, inr read;
     generateContent := λ _ _, reply;
     throws_after_request := λ _ _, true;
     JSON_parse := sample_JSON_parse;
     Number_digits := λ _, "" |}.

Definition data_url : string := "data:application/pdf;base64,JVBERi0x".

Definition network_error : JSError := mkError "TypeError" "Failed to fetch".

Definition world_no_key : World :=
  sample_world None (Some data_url) (inr {| text := Some "{}" |}).

Definition world_offline : World :=
  sample_world (Some "key") (Some data_url) (inl network_error).

Definition world_no_text : World :=
  sample_world (Some "key") (Some data_url) (inr {| text := None |}).

Definition world_empty_object : World :=
  sample_world (Some "key") (Some data_url) (inr {| text := Some "{}" |}).

Definition world_resume : World :=
  sample_world (Some "key") (Some data_url) (inr {| text := Some resume_json |}).

Definition world_resume_canada : World :=
  sample_world (Some "key") (Some data_url)
    (inr {| text := Some resume_json_canada |}).

Definition world_read_error : World :=
  sample_world (Some "key") None (inr {| text := Some resume_json |}).

(** The world of a client without a [models] member: the call expression
    throws a [TypeError] before any request is made. *)
Definition world_no_models : World :=
  {| REACT_APP_GEMINI_API_KEY := Some "key";
     FileReader_result := λ _, inr (Some data_url);
     generateContent :=
       λ _ _, inl (TypeError_read "undefined" "generateContent");
     throws_after_request := λ _ _, false;
     JSON_parse := sample_JSON_parse;
     Number_digits := λ _, "" |}.

(** A world without [FileReader]: constructing the reader throws. *)
Definition world_no_FileReader : World :=
  {| REACT_APP_GEMINI_API_KEY := Some "key";
     FileReader_result :=
       λ _, inl (mkError "ReferenceError" "FileReader is not defined");
     generateContent := λ _ _, inr {| text := Some resume_json |};
     throws_after_request := λ _ _, true;
     JSON_parse := sample_JSON_parse;
     Number_digits := λ _, "" |}.

Definition resume_pdf : File :=
  {| file_name := "resume.pdf"; file_type := "application/pdf";
     file_bytes := "%PDF-1" |}.

Definition ielts : LanguageDetails :=
  {| testType := "IELTS"; overallScore := 7; reading := 7; writing := 6;
     listening := 8; speaking := 7 |}.

(** French details whose test type is the sentinel, with scores present. *)
Definition french_none : LanguageDetails :=
  {| testType := "None"; overallScore := 5; reading := 4; writing := 3;
     listening := 2; speaking := 1 |}.

Definition applicant : UserProfile :=
  {| name := "A"; age := 30; countryOfResidence := "India";
     educationLevel := "Bachelor"; fieldOfStudy := "Computer Science";
     workExperienceYears := 5; savings := 20000; settlementFunds := 15000;
     languageDetails := Some ielts; frenchDetails := Some french_none |}.

(** The same applicant with the sentinel details given as English ones. *)
Definition applicant_english_none : UserProfile :=
  {| name := "A"; age := 30; countryOfResidence := "India";
     educationLevel := "Bachelor"; fieldOfStudy := "Computer Science";
     workExperienceYears := 5; savings := 20000; settlementFunds := 15000;
     languageDetails := Some french_none; frenchDetails := None |}.

End Samples.

(** The console line and the error of a missing credential. *)
Definition missing_key_log : Event :=
  ConsoleError [LogStr "❌ Gemini API Key Missing!"].

Definition missing_key_error : JSError := Error "Missing Gemini API Key".

(** The console line of the [catch] block of [analyzeProfile]. *)
Definition analysis_error_log (error : JSError) : Event :=
  ConsoleError [LogStr "Error analyzing profile:"; LogErr error].

(** The console line of the [catch] block of [parseResume]. *)
Definition resume_error_log (error : JSError) : Event :=
  ConsoleError [LogStr "Error parsing resume:"; LogErr error].

(** The value of [data.key] where the read does not throw. *)
Definition prop (data : JSValue) (key : string) : JSValue :=
  match getProp data key with
  | inr v => v
  | inl _ => JUndefined
  end.

(** The object literal [parseResume] returns for parsed [data]. *)
Definition resume_profile (data : JSValue) : gmap string JSValue :=
  list_to_map
    [("name", prop data "name");
     ("countryOfResidence", or_else (prop data "country") JUndefined);
     ("educationLevel", prop data "educationLevel");
     ("fieldOfStudy", prop data "fieldOfStudy");
     ("workExperienceYears", prop data "workExperienceYears");
     ("englishScore", prop data "englishScore")].

(** The configured credential: the build-time value when it is present and
    not the empty string. *)
Definition credential (W : World) : option string :=
  truthy_string (REACT_APP_GEMINI_API_KEY W).

(** ** Auxiliary notions for the statements *)

(** [s] has no comma. *)
Fixpoint no_comma (s : string) : bool :=
  match s with
  | EmptyString => true
  | String c rest => negb (Ascii.eqb c ","%char) && no_comma rest
  end.

(** [pieces.join(',')]. *)
Fixpoint join_comma (pieces : list string) : string :=
  match pieces with
  | [] => EmptyString
  | [piece] => piece
  | piece :: rest => piece +:+ "," +:+ join_comma rest
  end.

(** The keys of the object [parseResume] builds from a parsed document. *)
Definition resume_keys : list string :=
  ["name"; "countryOfResidence"; "educationLevel"; "fieldOfStudy";
   "workExperienceYears"; "englishScore"].

(** The keys [parseResume] copies without change. *)
Definition copied_keys : list string :=
  ["name"; "educationLevel"; "fieldOfStudy"; "workExperienceYears";
   "englishScore"].

(** [{ ...profile, fieldOfStudy }]. *)
Definition with_fieldOfStudy (profile : UserProfile) (field : string)
  : UserProfile :=
  {| name := name profile; age := age profile;
     countryOfResidence := countryOfResidence profile;
     educationLevel := educationLevel profile;
     fieldOfStudy := field;
     workExperienceYears := workExperienceYears profile;
     savings := savings profile;
     settlementFunds := settlementFunds profile;
     languageDetails := languageDetails profile;
     frenchDetails := frenchDetails profile |}.

(** The summary line the templates of [analyzeProfile] build from details. *)
Definition summary_line (W : World) (d : LanguageDetails) : string :=
  testType d +:+ " - Overall:" +:+
  Number_toString (Number_digits W) (overallScore d) +:+
  ", R:" +:+ Number_toString (Number_digits W) (reading d) +:+
  ", W:" +:+ Number_toString (Number_digits W) (writing d) +:+
  ", L:" +:+ Number_toString (Number_digits W) (listening d) +:+
  ", S:" +:+ Number_toString (Number_digits W) (speaking d).

(** French details whose test type differs from the sentinel in case. *)
Definition french_lowercase : LanguageDetails :=
  {| testType := "none"; overallScore := 5; reading := 4; writing := 3;
     listening := 2; speaking := 1 |}.

Definition applicant_french_lowercase : UserProfile :=
  {| name := "A"; age := 30; countryOfResidence := "India";
     educationLevel := "Bachelor"; fieldOfStudy := "Computer Science";
     workExperienceYears := 5; savings := 20000; settlementFunds := 15000;
     languageDetails := None; frenchDetails := Some french_lowercase |}.

(** * Properties *)

Import Samples.
Local Open Scope list_scope.

(** ** Running the client factory *)

Lemma getAIClient_run (W : World) (t : list Event) :
  getAIClient W t =
  match truthy_string (REACT_APP_GEMINI_API_KEY W) with
  | None => (t ++ [missing_key_log], Throw missing_key_error)
  | Some apiKey => (t, Return (GoogleGenerativeAI apiKey))
  end.
Proof.
  unfold getAIClient.
  destruct (truthy_string (REACT_APP_GEMINI_API_KEY W)); reflexivity.
Qed.

Lemma truthy_string_absent : truthy_string None = None.
Proof. reflexivity. Qed.

Lemma truthy_string_Some (s : option string) (k : string) :
  truthy_string s = Some k → s = Some k ∧ k ≠ "".
Proof.
  destruct s as [s'|]; simpl; [|discriminate].
  destruct (String.eqb_spec s' ""); [discriminate|].
  intros [= <-]. auto.
Qed.

(** ** Running [analyzeProfile] *)

Section Analysis.

Context (W : World) {UserType : Type} `{UserTypeEnum UserType}.
Variables (profile : UserProfile) (userType : UserType).

Lemma analyzeProfile_without_key (t : list Event) :
  truthy_string (REACT_APP_GEMINI_API_KEY W) = None →
  analyzeProfile W profile userType t =
  (t ++ [missing_key_log], Throw missing_key_error).
Proof.
  intros Hkey. unfold analyzeProfile, bind.
  rewrite getAIClient_run, Hkey. reflexivity.
Qed.

(** With a credential the call resolves: with the parsed text, or with the
    fallback after logging the failure; a request that was made comes
    first. *)
Lemma analyzeProfile_with_key (key : string) (t : list Event) :
  truthy_string (REACT_APP_GEMINI_API_KEY W) = Some key →
  let request := analysis_request W profile userType in
  let t1 := t ++ [GenerateContent request] in
  analyzeProfile W profile userType t =
  match generateContent W (GoogleGenerativeAI key) request with
  | inl e =>
      ((t ++ request_event W (GoogleGenerativeAI key) request) ++
       [analysis_error_log e], Return fallback)
  | inr response =>
      match truthy_string (text response) with
      | None =>
          (t1 ++ [analysis_error_log (Error "No response returned")],
           Return fallback)
      | Some response_text =>
          match JSON_parse W response_text with
          | inl e => (t1 ++ [analysis_error_log e], Return fallback)
          | inr result => (t1, Return result)
          end
      end
  end.
Proof.
  intros Hkey request t1. unfold analyzeProfile, bind at 1.
  rewrite getAIClient_run, Hkey.
  unfold try_catch, models_generateContent, request_event, request_made,
    bind, emit, lift.
  fold request.
  destruct (generateContent W (GoogleGenerativeAI key) request)
    as [e|response].
  { destruct (throws_after_request W (GoogleGenerativeAI key) request);
      cbn; rewrite ?app_nil_r; reflexivity. }
  cbn. fold t1.
  destruct (truthy_string (text response)) as [response_text|];
    [|reflexivity].
  destruct (JSON_parse W response_text); reflexivity.
Qed.

End Analysis.

(** ** Running [parseResume] *)

Section Ingestion.

Context (W : World).
Variable file : File.

Lemma parseResume_without_key (t : list Event) :
  truthy_string (REACT_APP_GEMINI_API_KEY W) = None →
  parseResume W file t = (t ++ [missing_key_log], Throw missing_key_error).
Proof.
  intros Hkey. unfold parseResume, bind.
  rewrite getAIClient_run, Hkey. reflexivity.
Qed.

(** When the read fails, the encoder's promise is never settled and the
    call stays suspended on it: no request is made, nothing is logged. *)
Lemma parseResume_read_error (key : string) (t : list Event) :
  truthy_string (REACT_APP_GEMINI_API_KEY W) = Some key →
  FileReader_result W file = inr None →
  parseResume W file t = (t ++ [ReadAsDataURL file], Pending).
Proof.
  intros Hkey Hread. unfold parseResume, bind at 1.
  rewrite getAIClient_run, Hkey.
  unfold try_catch, fileToGenerativePart, base64EncodedDataPromise,
    bind, emit, never.
  rewrite Hread. reflexivity.
Qed.

(** When the reader cannot be started, the encoder's promise is rejected
    and the [catch] block takes over. *)
Lemma parseResume_read_throws (key : string) (e : JSError) (t : list Event) :
  truthy_string (REACT_APP_GEMINI_API_KEY W) = Some key →
  FileReader_result W file = inl e →
  parseResume W file t = (t ++ [resume_error_log e], Return ∅).
Proof.
  intros Hkey Hread. unfold parseResume, bind at 1.
  rewrite getAIClient_run, Hkey.
  unfold try_catch, fileToGenerativePart, base64EncodedDataPromise,
    bind, emit, throw.
  rewrite Hread. reflexivity.
Qed.

Lemma getProp_throws_or_not (data : JSValue) :
  (∀ key, getProp data key = inr (prop data key)) ∨
  (∃ base, ∀ key, getProp data key = inl (TypeError_read base key)).
Proof.
  unfold prop.
  destruct data; simpl; eauto.
Qed.

(** With a credential and a completed read the call resolves: with the
    mapped fields of the parsed text, or with the empty object; a request
    that was made follows the read. *)
Lemma parseResume_with_key (key url : string) (t : list Event) :
  truthy_string (REACT_APP_GEMINI_API_KEY W) = Some key →
  FileReader_result W file = inr (Some url) →
  let request :=
    resume_request (InlineData (split_comma url !! 1%nat) (file_type file))
      resume_prompt in
  let t1 := t ++ [ReadAsDataURL file; GenerateContent request] in
  parseResume W file t =
  match generateContent W (GoogleGenerativeAI key) request with
  | inl e =>
      ((t ++ [ReadAsDataURL file]) ++
       request_event W (GoogleGenerativeAI key) request ++
       [resume_error_log e], Return ∅)
  | inr response =>
      match truthy_string (text response) with
      | None => (t1, Return ∅)
      | Some response_text =>
          match JSON_parse W response_text with
          | inl e => (t1 ++ [resume_error_log e], Return ∅)
          | inr data =>
              match getProp data "name" with
              | inl e => (t1 ++ [resume_error_log e], Return ∅)
              | inr _ => (t1, Return (resume_profile data))
              end
          end
      end
  end.
Proof.
  intros Hkey Hread request t1. unfold parseResume, bind at 1.
  rewrite getAIClient_run, Hkey.
  unfold try_catch, fileToGenerativePart, base64EncodedDataPromise,
    models_generateContent, request_event, request_made, bind, emit, lift.
  rewrite Hread. cbn. fold request.
  destruct (generateContent W (GoogleGenerativeAI key) request)
    as [e|response].
  { destruct (throws_after_request W (GoogleGenerativeAI key) request);
      cbn; rewrite <- ?app_assoc; reflexivity. }
  cbn.
  replace ((t ++ [ReadAsDataURL file]) ++ [GenerateContent request]) with t1
    by (unfold t1; rewrite <- app_assoc; reflexivity).
  destruct (truthy_string (text response)) as [response_text|];
    [|reflexivity].
  destruct (JSON_parse W response_text) as [e|data]; [reflexivity|].
  unfold ret, throw. cbn.
  destruct (getProp_throws_or_not data) as [Hok|[base Hthrow]].
  - rewrite !Hok. reflexivity.
  - rewrite !Hthrow. reflexivity.
Qed.

End Ingestion.

(** ** Values *)

Example split_data_url :
  split_comma "data:application/pdf;base64,JVBERi0x" !! 1%nat = Some "JVBERi0x".
Proof. reflexivity. Qed.

Example split_without_comma : split_comma "data:" !! 1%nat = None.
Proof. reflexivity. Qed.

Example Number_toString_integer (other : float → string) :
  Number_toString other 7 = "7" ∧ Number_toString other (-310) = "-310" ∧
  Number_toString other (-0) = "0" ∧ Number_toString other nan = "NaN".
Proof. repeat split. Qed.

Example Number_toString_fraction (other : float → string) :
  Number_toString other 6.5 = other 6.5%float.
Proof. reflexivity. Qed.

Example falsy_values :
  truthy JUndefined = false ∧ truthy JNull = false ∧ truthy (JStr "") = false ∧
  truthy (JNum 0) = false ∧ truthy (JNum nan) = false ∧
  truthy (JStr "Canada") = true ∧ truthy (JObj ∅) = true.
Proof. repeat split. Qed.

(** ** Profile analysis: resolution and fallback *)

(** C1, as stated, fails: without the credential the client factory throws
    before the [try] block is entered, and [analyzeProfile] rejects with the
    missing-credential error instead of resolving with a result. *)
Lemma analyzeProfile_rejects_without_credential :
  run (analyzeProfile world_no_key applicant SampleStudent) =
    ([missing_key_log], Throw missing_key_error) ∧
  ¬ ∃ result : JSValue,
      snd (run (analyzeProfile world_no_key applicant SampleStudent)) =
      Return result.
Proof.
  assert (Hrun : run (analyzeProfile world_no_key applicant SampleStudent) =
                 ([missing_key_log], Throw missing_key_error))
    by (apply (analyzeProfile_without_key world_no_key applicant SampleStudent []);
        reflexivity).
  split; [exact Hrun|].
  intros [result Hresult]. rewrite Hrun in Hresult. discriminate.
Qed.

(** C1 (amended): when the credential is configured, [analyzeProfile]
    resolves with an analysis result for every profile and user type and
    never rejects: a throwing request, a response without text and a text
    that does not parse all give the fixed fallback result, and a text that
    parses gives the parsed value. *)
Theorem analyzeProfile_resolves_with_credential
    (W : World) {UserType : Type} `{UserTypeEnum UserType}
    (profile : UserProfile) (userType : UserType)
    (key : string) (t : list Event) :
  credential W = Some key →
  ∃ result : JSValue,
    snd (analyzeProfile W profile userType t) = Return result ∧
    let outcome :=
      generateContent W (GoogleGenerativeAI key)
        (analysis_request W profile userType) in
    (∀ e, outcome = inl e → result = fallback) ∧
    (∀ response, outcome = inr response →
       truthy_string (text response) = None → result = fallback) ∧
    (∀ response response_text e, outcome = inr response →
       truthy_string (text response) = Some response_text →
       JSON_parse W response_text = inl e → result = fallback) ∧
    (∀ response response_text parsed, outcome = inr response →
       truthy_string (text response) = Some response_text →
       JSON_parse W response_text = inr parsed → result = parsed).
Proof.
  intros Hkey. cbv zeta.
  rewrite (analyzeProfile_with_key W profile userType key t Hkey).
  destruct (generateContent W (GoogleGenerativeAI key)
              (analysis_request W profile userType)) as [e|response].
  { exists fallback. repeat split; intros; congruence. }
  destruct (truthy_string (text response)) as [response_text|] eqn:Htext.
  2:{ exists fallback. repeat split; intros; congruence. }
  destruct (JSON_parse W response_text) as [e|parsed] eqn:Hparse.
  - exists fallback. repeat split; intros; simplify_eq; congruence.
  - exists parsed. repeat split; intros; simplify_eq; congruence.
Qed.

Lemma analyzeProfile_resolves_with_credential_witness :
  ∃ result : JSValue,
    snd (run (analyzeProfile world_offline applicant SampleStudent)) =
    Return result ∧ result = fallback.
Proof.
  destruct (analyzeProfile_resolves_with_credential
              world_offline applicant SampleStudent "key" [] eq_refl)
    as (result & Hresult & Hthrow & _).
  exists result. split; [exact Hresult|].
  exact (Hthrow network_error eq_refl).
Defined.

(** C3: when the model call throws, or its response has no text,
    [analyzeProfile] returns exactly the fixed fallback literal: probability
    72, score 310, one risk factor, one strength, one assumption, empty
    recommended and other pathways, two strategic-advice strings, and the
    four future-score projections 310, 335, 360 and 470. *)
Theorem analyzeProfile_fallback_literal
    (W : World) {UserType : Type} `{UserTypeEnum UserType}
    (profile : UserProfile) (userType : UserType)
    (key : string) (t : list Event) :
  credential W = Some key →
  let outcome :=
    generateContent W (GoogleGenerativeAI key)
      (analysis_request W profile userType) in
  (∃ e, outcome = inl e) ∨
  (∃ response, outcome = inr response ∧
               truthy_string (text response) = None) →
  ∃ fields : gmap string JSValue,
    snd (analyzeProfile W profile userType t) = Return (JObj fields) ∧
    JObj fields = fallback ∧
    dom fields =
      list_to_set
        ["overallSuccessProbability"; "crsScorePrediction"; "riskFactors";
         "strengths"; "assumptions"; "recommendedPathways"; "otherPathways";
         "strategicAdvice"; "futureCrsPredictions"] ∧
    fields !! "overallSuccessProbability" = Some (JNum 72) ∧
    fields !! "crsScorePrediction" = Some (JNum 310) ∧
    fields !! "riskFactors" = Some (JArr [JStr "Missing language test"]) ∧
    fields !! "strengths" = Some (JArr [JStr "Good financial support"]) ∧
    fields !! "assumptions" =
      Some (JArr [JStr "Assumed CLB 5 for missing IELTS"]) ∧
    fields !! "recommendedPathways" = Some (JArr []) ∧
    fields !! "otherPathways" = Some (JArr []) ∧
    fields !! "strategicAdvice" =
      Some (JArr [JStr "Improve English score";
                  JStr "Consider 2-year study leading to PGWP"]) ∧
    fields !! "futureCrsPredictions" =
      Some (JObj (list_to_map
                    [("current", JNum 310); ("oneYearStudy", JNum 335);
                     ("twoYearStudy", JNum 360);
                     ("twoYearStudyPlusWork", JNum 470)])).
Proof.
  intros Hkey outcome Hfail.
  assert (Hrun : snd (analyzeProfile W profile userType t) = Return fallback).
  { rewrite (analyzeProfile_with_key W profile userType key t Hkey).
    fold outcome.
    destruct Hfail as [[e ->]|(response & -> & ->)]; reflexivity. }
  unfold fallback in *.
  eexists. split; [exact Hrun|].
  split; [reflexivity|].
  split; [vm_compute; reflexivity|].
  repeat split; vm_compute; reflexivity.
Qed.

Lemma analyzeProfile_fallback_literal_witness :
  snd (run (analyzeProfile world_no_text applicant SampleSkilledWorker)) =
  Return fallback.
Proof.
  destruct (analyzeProfile_fallback_literal
              world_no_text applicant SampleSkilledWorker "key" [] eq_refl)
    as (fields & Hrun & Hfields & _).
  - right. exists {| text := None |}. split; reflexivity.
  - rewrite <- Hfields. exact Hrun.
Defined.

(** ** Profile analysis: the list fields of the result *)

(** C8, as stated, fails for a model-derived result: the response text [{}]
    parses, and the parsed object is returned as it is, with none of the
    list fields. *)
Lemma analyzeProfile_returns_object_without_list_fields :
  snd (run (analyzeProfile world_empty_object applicant SampleStudent)) =
    Return (JObj ∅) ∧
  has_list_fields (JObj ∅) = false ∧
  (∀ key, key ∈ list_fields → (∅ : gmap string JSValue) !! key = None).
Proof.
  split; [|split].
  - unfold run.
    rewrite (analyzeProfile_with_key world_empty_object applicant
               SampleStudent "key" [] eq_refl).
    reflexivity.
  - reflexivity.
  - intros key _. apply lookup_empty.
Qed.

(** C8 (amended): the fallback result has every list field present, and a
    result that is not the fallback is the parsed response text, returned
    unchanged: it has the list fields exactly when the model's JSON document
    has them. *)
Theorem analyzeProfile_list_fields
    (W : World) {UserType : Type} `{UserTypeEnum UserType}
    (profile : UserProfile) (userType : UserType)
    (key : string) (t : list Event) (result : JSValue) :
  credential W = Some key →
  snd (analyzeProfile W profile userType t) = Return result →
  has_list_fields fallback = true ∧
  (result = fallback ∨
   ∃ response response_text,
     generateContent W (GoogleGenerativeAI key)
       (analysis_request W profile userType) = inr response ∧
     truthy_string (text response) = Some response_text ∧
     JSON_parse W response_text = inr result).
Proof.
  intros Hkey.
  rewrite (analyzeProfile_with_key W profile userType key t Hkey).
  split; [vm_compute; reflexivity|].
  destruct (generateContent W (GoogleGenerativeAI key)
              (analysis_request W profile userType)) as [e|response];
    [left; simpl in *; congruence|].
  destruct (truthy_string (text response)) as [response_text|] eqn:Htext;
    [|left; simpl in *; congruence].
  destruct (JSON_parse W response_text) as [e|parsed] eqn:Hparse;
    [left; simpl in *; congruence|].
  right. exists response, response_text.
  simpl in *. simplify_eq. auto.
Qed.

Lemma analyzeProfile_list_fields_witness :
  has_list_fields fallback = true ∧
  (fallback = fallback ∨
   ∃ response response_text,
     generateContent world_offline (GoogleGenerativeAI "key")
       (analysis_request world_offline applicant SampleStudent) =
       inr response ∧
     truthy_string (text response) = Some response_text ∧
     JSON_parse world_offline response_text = inr fallback).
Proof.
  apply (analyzeProfile_list_fields world_offline applicant SampleStudent
           "key" [] fallback eq_refl).
  reflexivity.
Defined.

(** ** Profile analysis: the prompt *)

Lemma requests_request_event (W : World) (ai : Client) (request : Request) :
  requests (request_event W ai request) =
  if request_made W ai request then [request] else [].
Proof. unfold request_event. by destruct (request_made W ai request). Qed.

(** With a credential, [analyzeProfile] makes at most one request, the one
    built from the profile and the user type; it is made unless the call
    throws before it. *)
Lemma analyzeProfile_requests
    (W : World) {UserType : Type} `{UserTypeEnum UserType}
    (profile : UserProfile) (userType : UserType) (key : string) :
  credential W = Some key →
  requests (fst (run (analyzeProfile W profile userType))) =
  if request_made W (GoogleGenerativeAI key)
       (analysis_request W profile userType)
  then [analysis_request W profile userType] else [].
Proof.
  intros Hkey. unfold run.
  rewrite (analyzeProfile_with_key W profile userType key [] Hkey).
  unfold request_event, request_made.
  destruct (generateContent W (GoogleGenerativeAI key)
              (analysis_request W profile userType)) as [e|response].
  { by destruct (throws_after_request W (GoogleGenerativeAI key)
                   (analysis_request W profile userType)). }
  destruct (truthy_string (text response)) as [response_text|];
    [|reflexivity].
  destruct (JSON_parse W response_text); reflexivity.
Qed.

(** Whatever the world, a request in the trace of [analyzeProfile] is the
    one built from the profile and the user type. *)
Lemma analyzeProfile_request_in_trace
    (W : World) {UserType : Type} `{UserTypeEnum UserType}
    (profile : UserProfile) (userType : UserType) (request : Request) :
  request ∈ requests (fst (run (analyzeProfile W profile userType))) →
  request = analysis_request W profile userType.
Proof.
  destruct (credential W) as [key|] eqn:Hkey.
  - rewrite (analyzeProfile_requests W profile userType key Hkey).
    case_match; [|by intros ?%elem_of_nil].
    by intros ?%list_elem_of_singleton.
  - unfold run.
    rewrite (analyzeProfile_without_key W profile userType [] Hkey).
    by intros ?%elem_of_nil.
Qed.

(** C9: the instruction text has exactly two branches: the student text for
    [Student] and the skilled-worker text for every other user type; the two
    texts differ, and the selected one opens the prompt of the request
    [analyzeProfile] builds, which is the only request it ever makes. *)
Theorem specificInstructions_two_branches
    (W : World) {UserType : Type} `{UserTypeEnum UserType}
    (profile : UserProfile) (userType : UserType) :
  specificInstructions Student = student_instructions ∧
  (userType ≠ Student →
   specificInstructions userType = worker_instructions) ∧
  (specificInstructions userType = student_instructions ∨
   specificInstructions userType = worker_instructions) ∧
  student_instructions ≠ worker_instructions ∧
  (∃ rest,
     contents (analysis_request W profile userType) =
     ContentsText
       (LF +:+ "        " +:+ specificInstructions userType +:+ rest) ∧
     ∀ request,
       request ∈ requests (fst (run (analyzeProfile W profile userType))) →
       contents request =
       ContentsText
         (LF +:+ "        " +:+ specificInstructions userType +:+ rest)).
Proof.
  split; [|split; [|split; [|split]]].
  - unfold specificInstructions.
    destruct (decide (Student = Student)); [reflexivity|congruence].
  - intros Hother. unfold specificInstructions.
    destruct (decide (userType = Student)); [contradiction|reflexivity].
  - unfold specificInstructions.
    destruct (decide (userType = Student)); auto.
  - discriminate.
  - eexists. split; [reflexivity|].
    intros request Hrequest.
    by rewrite (analyzeProfile_request_in_trace W profile userType request
                  Hrequest).
Qed.

Lemma specificInstructions_two_branches_witness :
  specificInstructions SampleSkilledWorker = worker_instructions ∧
  ∃ rest,
    contents (analysis_request world_offline applicant SampleSkilledWorker) =
    ContentsText (LF +:+ "        " +:+ worker_instructions +:+ rest).
Proof.
  destruct (specificInstructions_two_branches world_offline applicant
              SampleSkilledWorker) as (_ & Hworker & _ & _ & Hprompt).
  split.
  - apply Hworker. discriminate.
  - destruct Hprompt as (rest & Hrest & _).
    exists rest. rewrite Hrest. rewrite (Hworker ltac:(discriminate)).
    reflexivity.
Defined.

(** ** The client factory *)

Lemma requests_app (t1 t2 : list Event) :
  requests (t1 ++ t2) = requests t1 ++ requests t2.
Proof. apply omap_app. Qed.

(** An empty credential is a missing one. *)
Lemma getAIClient_empty_key (W : World) (t : list Event) :
  REACT_APP_GEMINI_API_KEY W = Some "" →
  getAIClient W t = (t ++ [missing_key_log], Throw missing_key_error).
Proof. intros Hkey. rewrite getAIClient_run, Hkey. reflexivity. Qed.

(** The only error either operation lets escape is the client factory's,
    thrown before anything else was done. *)
Lemma parseResume_throw_inv (W : World) (file : File)
    (t t' : list Event) (e : JSError) :
  parseResume W file t = (t', Throw e) →
  e = missing_key_error ∧ t' = t ++ [missing_key_log] ∧ credential W = None.
Proof.
  unfold credential.
  destruct (truthy_string (REACT_APP_GEMINI_API_KEY W)) as [key|] eqn:Hkey.
  - destruct (FileReader_result W file) as [e'|[url|]] eqn:Hread.
    + rewrite (parseResume_read_throws W file key e' t Hkey Hread).
      discriminate.
    + rewrite (parseResume_with_key W file key url t Hkey Hread).
      repeat case_match; discriminate.
    + rewrite (parseResume_read_error W file key t Hkey Hread).
      discriminate.
  - rewrite (parseResume_without_key W file t Hkey).
    intros [= ? ?]; subst; auto.
Qed.

Lemma analyzeProfile_throw_inv (W : World)
    {UserType : Type} `{UserTypeEnum UserType}
    (profile : UserProfile) (userType : UserType)
    (t t' : list Event) (e : JSError) :
  analyzeProfile W profile userType t = (t', Throw e) →
  e = missing_key_error ∧ t' = t ++ [missing_key_log] ∧ credential W = None.
Proof.
  unfold credential.
  destruct (truthy_string (REACT_APP_GEMINI_API_KEY W)) as [key|] eqn:Hkey.
  - rewrite (analyzeProfile_with_key W profile userType key t Hkey).
    repeat case_match; discriminate.
  - rewrite (analyzeProfile_without_key W profile userType t Hkey).
    intros [= ? ?]; subst; auto.
Qed.

(** C4: when the credential is absent, [getAIClient] logs an error and
    throws the missing-credential error, and no request has been made by
    then; this error is the only one that [getAIClient] or its callers
    [parseResume] and [analyzeProfile] let escape, and they pass it on as it
    is, having done nothing else. *)
Theorem getAIClient_missing_credential (W : World) :
  (REACT_APP_GEMINI_API_KEY W = None →
   ∀ t, getAIClient W t = (t ++ [missing_key_log], Throw missing_key_error) ∧
        requests (fst (getAIClient W t)) = requests t) ∧
  (∀ t t' e, getAIClient W t = (t', Throw e) →
     e = missing_key_error ∧ credential W = None) ∧
  (∀ file t t' e, parseResume W file t = (t', Throw e) →
     e = missing_key_error ∧ t' = t ++ [missing_key_log] ∧
     credential W = None) ∧
  (∀ (UserType : Type) (E : UserTypeEnum UserType) profile
     (userType : UserType) t t' e,
     analyzeProfile W profile userType t = (t', Throw e) →
     e = missing_key_error ∧ t' = t ++ [missing_key_log] ∧
     credential W = None).
Proof.
  split; [|split; [|split]].
  - intros Hkey t. rewrite getAIClient_run, Hkey. simpl.
    split; [reflexivity|].
    rewrite requests_app. simpl. apply app_nil_r.
  - intros t t' e. rewrite getAIClient_run. unfold credential.
    destruct (truthy_string (REACT_APP_GEMINI_API_KEY W));
      intros [= ? ?]; subst; auto.
  - apply parseResume_throw_inv.
  - intros UserType E. apply analyzeProfile_throw_inv.
Qed.

Lemma getAIClient_missing_credential_witness :
  run (getAIClient world_no_key) = ([missing_key_log], Throw missing_key_error) ∧
  requests (fst (run (getAIClient world_no_key))) = [].
Proof.
  exact (proj1 (getAIClient_missing_credential world_no_key) eq_refl []).
Defined.

(** ** Resume ingestion *)

(** C2, as stated, fails: without the credential the client factory throws
    before the [try] block is entered, and [parseResume] rejects with the
    missing-credential error instead of resolving with the empty profile. *)
Lemma parseResume_rejects_without_credential :
  run (parseResume world_no_key resume_pdf) =
    ([missing_key_log], Throw missing_key_error) ∧
  snd (run (parseResume world_no_key resume_pdf)) ≠ Return ∅.
Proof.
  assert (Hrun : run (parseResume world_no_key resume_pdf) =
                 ([missing_key_log], Throw missing_key_error))
    by (apply (parseResume_without_key world_no_key resume_pdf []);
        reflexivity).
  split; [exact Hrun|]. rewrite Hrun. discriminate.
Qed.

(** A read that fails leaves the call suspended: it neither resolves nor
    rejects. *)
Example parseResume_pending_on_read_error :
  run (parseResume world_read_error resume_pdf) =
  ([ReadAsDataURL resume_pdf], Pending).
Proof.
  apply (parseResume_read_error world_read_error resume_pdf "key" []);
    reflexivity.
Qed.

(** C2 (amended): when the credential is configured, [parseResume] never
    rejects, for any file.  If the reader throws it resolves with the empty
    profile after logging the error, no read having started.  When the file
    read completes it resolves: with the empty profile after logging the
    error if the network call (whether or not it got as far as a request)
    or the JSON parse fails, and with the empty profile, nothing logged, if
    the response has no text. *)
Theorem parseResume_never_rejects_with_credential
    (W : World) (file : File) (key : string) (t : list Event) :
  credential W = Some key →
  (∀ e, snd (parseResume W file t) ≠ Throw e) ∧
  (∀ e, FileReader_result W file = inl e →
     parseResume W file t = (t ++ [resume_error_log e], Return ∅)) ∧
  (∀ url, FileReader_result W file = inr (Some url) →
     let request :=
       resume_request
         (InlineData (split_comma url !! 1%nat) (file_type file))
         resume_prompt in
     let outcome := generateContent W (GoogleGenerativeAI key) request in
     let t1 := t ++ [ReadAsDataURL file; GenerateContent request] in
     (∃ result, snd (parseResume W file t) = Return result) ∧
     (∀ e, outcome = inl e →
        parseResume W file t =
        ((t ++ [ReadAsDataURL file]) ++
         request_event W (GoogleGenerativeAI key) request ++
         [resume_error_log e], Return ∅)) ∧
     (∀ response, outcome = inr response →
        truthy_string (text response) = None →
        parseResume W file t = (t1, Return ∅)) ∧
     (∀ response response_text e, outcome = inr response →
        truthy_string (text response) = Some response_text →
        JSON_parse W response_text = inl e →
        parseResume W file t = (t1 ++ [resume_error_log e], Return ∅))).
Proof.
  intros Hkey. split; [|split].
  - intros e Hthrow.
    destruct (parseResume W file t) as [t' c] eqn:Hrun. simpl in Hthrow.
    subst c.
    destruct (parseResume_throw_inv W file t t' e Hrun) as (_ & _ & Hnone).
    congruence.
  - intros e Hread. exact (parseResume_read_throws W file key e t Hkey Hread).
  - intros url Hread. cbv zeta.
    rewrite (parseResume_with_key W file key url t Hkey Hread).
    split; [repeat case_match; eauto|].
    split; [|split].
    + intros e He. rewrite He. reflexivity.
    + intros response Houtcome Htext. rewrite Houtcome, Htext. reflexivity.
    + intros response response_text e Houtcome Htext Hparse.
      rewrite Houtcome, Htext, Hparse. reflexivity.
Qed.

Lemma parseResume_never_rejects_with_credential_witness :
  run (parseResume world_no_models resume_pdf) =
    ([ReadAsDataURL resume_pdf;
      resume_error_log (TypeError_read "undefined" "generateContent")],
     Return ∅) ∧
  run (parseResume world_no_FileReader resume_pdf) =
    ([resume_error_log (mkError "ReferenceError" "FileReader is not defined")],
     Return ∅).
Proof.
  split.
  - exact (proj1 (proj2
             (proj2 (proj2 (parseResume_never_rejects_with_credential
                              world_no_models resume_pdf "key" [] eq_refl))
                data_url eq_refl))
             (TypeError_read "undefined" "generateContent") eq_refl).
  - exact (proj1 (proj2 (parseResume_never_rejects_with_credential
                           world_no_FileReader resume_pdf "key" [] eq_refl))
             (mkError "ReferenceError" "FileReader is not defined") eq_refl).
Defined.

Lemma resume_profile_country (data : JSValue) :
  resume_profile data !! "countryOfResidence" =
  Some (or_else (prop data "country") JUndefined).
Proof. reflexivity. Qed.

Lemma or_else_undefined_not_empty (v : JSValue) :
  or_else v JUndefined ≠ JStr "".
Proof.
  unfold or_else. destruct (truthy v) eqn:Htruthy; [|discriminate].
  intros ->. discriminate.
Qed.

(** C5: when the response text parses, the parsed [country] is returned as
    [countryOfResidence]: unchanged when it is truthy, and as [undefined]
    when it is absent or falsy; the field is never the empty string. *)
Theorem parseResume_country_mapping
    (W : World) (file : File) (key url : string) (response : Response)
    (response_text : string) (data : JSValue) (t : list Event) :
  credential W = Some key →
  FileReader_result W file = inr (Some url) →
  generateContent W (GoogleGenerativeAI key)
    (resume_request (InlineData (split_comma url !! 1%nat) (file_type file))
       resume_prompt) = inr response →
  truthy_string (text response) = Some response_text →
  JSON_parse W response_text = inr data →
  ∃ result : gmap string JSValue,
    snd (parseResume W file t) = Return result ∧
    (∀ country, getProp data "country" = inr country →
       result !! "countryOfResidence" =
       Some (if truthy country then country else JUndefined)) ∧
    (∀ props, data = JObj props → props !! "country" = None →
       result !! "countryOfResidence" = Some JUndefined) ∧
    result !! "countryOfResidence" ≠ Some (JStr "").
Proof.
  intros Hkey Hread Houtcome Htext Hparse.
  rewrite (parseResume_with_key W file key url t Hkey Hread).
  rewrite Houtcome, Htext, Hparse.
  destruct (getProp_throws_or_not data) as [Hok|[base Hthrow]].
  - rewrite Hok. exists (resume_profile data).
    split; [reflexivity|]. rewrite resume_profile_country.
    split; [|split].
    + intros country Hcountry. rewrite Hok in Hcountry.
      injection Hcountry as ->. reflexivity.
    + intros props -> Hnone. unfold prop. simpl. rewrite Hnone. reflexivity.
    + intros [= Hempty]. exact (or_else_undefined_not_empty _ Hempty).
  - rewrite Hthrow. exists ∅.
    split; [reflexivity|]. split; [|split].
    + intros country Hcountry. rewrite Hthrow in Hcountry. discriminate.
    + intros props -> _. specialize (Hthrow "country"). discriminate.
    + rewrite lookup_empty. discriminate.
Qed.

Lemma parseResume_country_mapping_witness :
  ∃ result : gmap string JSValue,
    snd (run (parseResume world_resume_canada resume_pdf)) = Return result ∧
    result !! "countryOfResidence" = Some (JStr "Canada").
Proof.
  destruct (parseResume_country_mapping
              world_resume_canada resume_pdf "key" data_url
              {| text := Some resume_json_canada |} resume_json_canada
              (JObj (<["country" := JStr "Canada"]> resume_data)) []
              eq_refl eq_refl eq_refl eq_refl eq_refl)
    as (result & Hresult & Hcountry & _).
  exists result. split; [exact Hresult|].
  exact (Hcountry (JStr "Canada") eq_refl).
Defined.

(** The response of the spec's example without [country]: the field is
    present and [undefined]. *)
Example parseResume_without_country :
  ∃ result : gmap string JSValue,
    snd (run (parseResume world_resume resume_pdf)) = Return result ∧
    result !! "countryOfResidence" = Some JUndefined ∧
    result !! "name" = Some (JStr "A") ∧
    result !! "workExperienceYears" = Some (JNum 5).
Proof. eexists. split; [vm_compute; reflexivity|]. repeat split. Qed.

(** A response text that parses to [null] makes the first field read throw:
    the error is logged and the empty profile returned. *)
Example parseResume_null_document :
  run (parseResume
         (sample_world (Some "key") (Some data_url)
            (inr {| text := Some "null" |})) resume_pdf) =
  ([ReadAsDataURL resume_pdf;
    GenerateContent
      (resume_request (InlineData (Some "JVBERi0x") "application/pdf")
         resume_prompt);
    resume_error_log (TypeError_read "null" "name")],
   Return ∅).
Proof. vm_compute. reflexivity. Qed.

(** ** Profile analysis: the language lines *)

Lemma string_append_assoc (s1 s2 s3 : string) :
  (s1 +:+ s2) +:+ s3 = s1 +:+ s2 +:+ s3.
Proof.
  induction s1 as [|c s1 IH]; [reflexivity|].
  change (String c ((s1 +:+ s2) +:+ s3) = String c (s1 +:+ s2 +:+ s3)).
  by rewrite IH.
Qed.

(** The profile block carries the English line and the French line. *)
Lemma commonPrompt_english_line (W : World) (profile : UserProfile) :
  ∃ before after,
    commonPrompt W profile =
    before +:+ LF +:+ "    English: " +:+ englishInfo W profile +:+
    LF +:+ after.
Proof.
  exists (LF +:+ "    Profile:" +:+
          LF +:+ "    Name: " +:+ name profile +:+
          LF +:+ "    Age: " +:+
            Number_toString (Number_digits W) (age profile) +:+
          LF +:+ "    Country: " +:+ countryOfResidence profile +:+
          LF +:+ "    Education: " +:+ educationLevel profile +:+
          LF +:+ "    Work Experience: " +:+
            Number_toString (Number_digits W) (workExperienceYears profile)).
  eexists.
  unfold commonPrompt. rewrite !string_append_assoc. reflexivity.
Qed.

Lemma commonPrompt_french_line (W : World) (profile : UserProfile) :
  ∃ before after,
    commonPrompt W profile =
    before +:+ LF +:+ "    French: " +:+ frenchInfo W profile +:+
    LF +:+ after.
Proof.
  exists (LF +:+ "    Profile:" +:+
          LF +:+ "    Name: " +:+ name profile +:+
          LF +:+ "    Age: " +:+
            Number_toString (Number_digits W) (age profile) +:+
          LF +:+ "    Country: " +:+ countryOfResidence profile +:+
          LF +:+ "    Education: " +:+ educationLevel profile +:+
          LF +:+ "    Work Experience: " +:+
            Number_toString (Number_digits W) (workExperienceYears profile) +:+
          LF +:+ "    English: " +:+ englishInfo W profile).
  eexists.
  unfold commonPrompt. rewrite !string_append_assoc. reflexivity.
Qed.

(** C6: with English details the English line is
    [TestType - Overall:X, R:r, W:w, L:l, S:s] (for the IELTS scores 7, 7, 6,
    8, 7: [IELTS - Overall:7, R:7, W:6, L:8, S:7]), and without them it is
    [N/A]; the profile text carries it as its [English:] line. *)
Theorem englishInfo_format (W : World) (profile : UserProfile) :
  (∀ lt, languageDetails profile = Some lt →
     englishInfo W profile =
     testType lt +:+ " - Overall:" +:+
     Number_toString (Number_digits W) (overallScore lt) +:+
     ", R:" +:+ Number_toString (Number_digits W) (reading lt) +:+
     ", W:" +:+ Number_toString (Number_digits W) (writing lt) +:+
     ", L:" +:+ Number_toString (Number_digits W) (listening lt) +:+
     ", S:" +:+ Number_toString (Number_digits W) (speaking lt)) ∧
  (languageDetails profile =
     Some {| testType := "IELTS"; overallScore := 7; reading := 7;
             writing := 6; listening := 8; speaking := 7 |} →
   englishInfo W profile = "IELTS - Overall:7, R:7, W:6, L:8, S:7") ∧
  (languageDetails profile = None → englishInfo W profile = "N/A") ∧
  (∃ before after,
     commonPrompt W profile =
     before +:+ LF +:+ "    English: " +:+ englishInfo W profile +:+
     LF +:+ after).
Proof.
  unfold englishInfo at 1 2 3.
  split; [|split; [|split]].
  - intros lt ->. reflexivity.
  - intros ->. reflexivity.
  - intros ->. reflexivity.
  - apply commonPrompt_english_line.
Qed.

Lemma englishInfo_format_witness :
  englishInfo world_offline applicant = "IELTS - Overall:7, R:7, W:6, L:8, S:7".
Proof.
  exact (proj1 (proj2 (englishInfo_format world_offline applicant)) eq_refl).
Defined.

(** C7: when the French details are absent, or their test type is the
    [None] sentinel, the French line is [None], whatever the sub-scores;
    the profile text carries it as its [French:] line. *)
Theorem frenchInfo_none_sentinel (W : World) (profile : UserProfile) :
  frenchDetails profile = None ∨
  (∃ fr, frenchDetails profile = Some fr ∧ testType fr = "None") →
  frenchInfo W profile = "None" ∧
  ∃ before after,
    commonPrompt W profile =
    before +:+ LF +:+ "    French: None" +:+ LF +:+ after.
Proof.
  intros Hsentinel.
  assert (Hfrench : frenchInfo W profile = "None").
  { unfold frenchInfo.
    destruct Hsentinel as [->|(fr & -> & ->)]; reflexivity. }
  split; [exact Hfrench|].
  destruct (commonPrompt_french_line W profile) as (before & after & Hline).
  exists before, after. rewrite Hline, Hfrench. reflexivity.
Qed.

Lemma frenchInfo_none_sentinel_witness :
  frenchInfo world_offline applicant = "None".
Proof.
  refine (proj1 (frenchInfo_none_sentinel world_offline applicant _)).
  right. exists french_none. split; reflexivity.
Defined.

Lemma None_summary_not_NA (rest : string) :
  "None - Overall:" +:+ rest ≠ "N/A".
Proof.
  intros Heq.
  change (String "N" (String "o" ("ne - Overall:" +:+ rest)) =
          String "N" (String "/" "A")) in Heq.
  discriminate.
Qed.

(** C10: the [None] sentinel is checked for French only: English details
    whose test type is [None] are still rendered as the full summary line
    [None - Overall:...], not as [N/A], while the same details given as
    French details render as [None]. *)
Theorem englishInfo_ignores_none_sentinel
    (W : World) (profile : UserProfile) (lt : LanguageDetails) :
  languageDetails profile = Some lt →
  testType lt = "None" →
  englishInfo W profile =
    "None - Overall:" +:+
    Number_toString (Number_digits W) (overallScore lt) +:+
    ", R:" +:+ Number_toString (Number_digits W) (reading lt) +:+
    ", W:" +:+ Number_toString (Number_digits W) (writing lt) +:+
    ", L:" +:+ Number_toString (Number_digits W) (listening lt) +:+
    ", S:" +:+ Number_toString (Number_digits W) (speaking lt) ∧
  englishInfo W profile ≠ "N/A" ∧
  (frenchDetails profile = Some lt → frenchInfo W profile = "None").
Proof.
  intros Hdetails Htype.
  assert (Henglish :
    englishInfo W profile =
    "None - Overall:" +:+
    Number_toString (Number_digits W) (overallScore lt) +:+
    ", R:" +:+ Number_toString (Number_digits W) (reading lt) +:+
    ", W:" +:+ Number_toString (Number_digits W) (writing lt) +:+
    ", L:" +:+ Number_toString (Number_digits W) (listening lt) +:+
    ", S:" +:+ Number_toString (Number_digits W) (speaking lt)).
  { unfold englishInfo. rewrite Hdetails, Htype. reflexivity. }
  split; [exact Henglish|]. split.
  - rewrite Henglish. apply None_summary_not_NA.
  - intros Hfrench. unfold frenchInfo. rewrite Hfrench, Htype. reflexivity.
Qed.

Lemma englishInfo_ignores_none_sentinel_witness :
  englishInfo world_offline applicant_english_none =
  "None - Overall:5, R:4, W:3, L:2, S:1".
Proof.
  exact (proj1 (englishInfo_ignores_none_sentinel
                  world_offline applicant_english_none french_none
                  eq_refl eq_refl)).
Defined.

(** * Further properties *)

(** ** Strings and [split] *)

Lemma append_cons (c : ascii) (s t : string) :
  String c s +:+ t = String c (s +:+ t).
Proof. reflexivity. Qed.

Lemma string_length_append (s t : string) :
  String.length (s +:+ t) = String.length s + String.length t.
Proof.
  induction s as [|c s IH]; [reflexivity|].
  rewrite append_cons. simpl. by rewrite IH.
Qed.

Lemma split_comma_nonempty (s : string) : split_comma s ≠ [].
Proof.
  induction s as [|c s IH]; simpl; [discriminate|].
  destruct (Ascii.eqb c ","); [discriminate|].
  destruct (split_comma s); discriminate.
Qed.

Lemma join_comma_cons (c : ascii) (piece : string) (pieces : list string) :
  join_comma (String c piece :: pieces) = String c (join_comma (piece :: pieces)).
Proof. destruct pieces; reflexivity. Qed.

(** Joining the pieces of a split with commas gives the string back. *)
Lemma join_split_comma (s : string) : join_comma (split_comma s) = s.
Proof.
  induction s as [|c s IH]; [reflexivity|]. simpl.
  destruct (Ascii.eqb_spec c ",") as [->|Hc].
  - destruct (split_comma s) as [|piece pieces] eqn:Hsplit.
    + by destruct (split_comma_nonempty s).
    + change (String "," (join_comma (piece :: pieces)) = String "," s).
      by rewrite IH.
  - destruct (split_comma s) as [|piece pieces] eqn:Hsplit.
    + by destruct (split_comma_nonempty s).
    + rewrite join_comma_cons. by rewrite IH.
Qed.

Lemma split_comma_no_comma (s : string) :
  no_comma s = true → split_comma s = [s].
Proof.
  induction s as [|c s IH]; [reflexivity|]. simpl.
  intros [Hc Hs]%andb_prop. rewrite (IH Hs).
  destruct (Ascii.eqb c ","); [discriminate|reflexivity].
Qed.

Lemma split_comma_prefix (prefix rest : string) :
  no_comma prefix = true →
  split_comma (prefix +:+ "," +:+ rest) = prefix :: split_comma rest.
Proof.
  induction prefix as [|c prefix IH]; [reflexivity|]. simpl no_comma.
  intros [Hc Hs]%andb_prop. rewrite append_cons. simpl.
  rewrite (IH Hs). destruct (Ascii.eqb c ","); [discriminate|reflexivity].
Qed.

Lemma split_comma_head (payload tail : string) :
  no_comma payload = true →
  head (split_comma payload) = Some payload ∧
  head (split_comma (payload +:+ "," +:+ tail)) = Some payload.
Proof.
  intros Hpayload. split.
  - by rewrite split_comma_no_comma.
  - by rewrite split_comma_prefix.
Qed.

(** ** The client factory, configured *)

(** X1: [getAIClient] throws exactly when the credential is absent or the
    empty string; any other value gives a client that carries it, and then
    nothing is logged. *)
Theorem getAIClient_throws_iff_absent_or_empty (W : World) (t : list Event) :
  ((REACT_APP_GEMINI_API_KEY W = None ∨
    REACT_APP_GEMINI_API_KEY W = Some "") ↔
   getAIClient W t = (t ++ [missing_key_log], Throw missing_key_error)) ∧
  (∀ key, REACT_APP_GEMINI_API_KEY W = Some key → key ≠ "" →
     getAIClient W t = (t, Return (GoogleGenerativeAI key))).
Proof.
  rewrite getAIClient_run. split; [split|].
  - intros [->| ->]; reflexivity.
  - destruct (REACT_APP_GEMINI_API_KEY W) as [key|]; [|auto].
    simpl. destruct (String.eqb_spec key ""); [subst; auto|discriminate].
  - intros key -> Hkey. simpl.
    destruct (String.eqb_spec key ""); [contradiction|reflexivity].
Qed.

Lemma getAIClient_throws_iff_absent_or_empty_witness :
  run (getAIClient world_offline) = ([], Return (GoogleGenerativeAI "key")).
Proof.
  apply (proj2 (getAIClient_throws_iff_absent_or_empty world_offline [])
           "key" eq_refl).
  discriminate.
Defined.

(** ** The file encoder *)

Lemma fileToGenerativePart_run (W : World) (file : File) (t : list Event) :
  fileToGenerativePart W file t =
  match FileReader_result W file with
  | inl e => (t, Throw e)
  | inr (Some result) =>
      (t ++ [ReadAsDataURL file],
       Return (InlineData (split_comma result !! 1%nat) (file_type file)))
  | inr None => (t ++ [ReadAsDataURL file], Pending)
  end.
Proof.
  unfold fileToGenerativePart, base64EncodedDataPromise, bind, emit.
  destruct (FileReader_result W file) as [e|[result|]]; reflexivity.
Qed.

(** X2: for a read result [prefix,payload] with no other comma, the encoder
    resolves with the payload as [data] and the file's declared type as
    [mimeType], having only started the read. *)
Theorem fileToGenerativePart_data_url
    (W : World) (file : File) (prefix payload : string) (t : list Event) :
  no_comma prefix = true →
  no_comma payload = true →
  FileReader_result W file = inr (Some (prefix +:+ "," +:+ payload)) →
  fileToGenerativePart W file t =
  (t ++ [ReadAsDataURL file],
   Return (InlineData (Some payload) (file_type file))).
Proof.
  intros Hprefix Hpayload Hread.
  rewrite fileToGenerativePart_run, Hread.
  rewrite (split_comma_prefix _ _ Hprefix).
  rewrite (split_comma_no_comma _ Hpayload). reflexivity.
Qed.

Lemma fileToGenerativePart_data_url_witness :
  run (fileToGenerativePart world_offline resume_pdf) =
  ([ReadAsDataURL resume_pdf],
   Return (InlineData (Some "JVBERi0x") "application/pdf")).
Proof.
  exact (fileToGenerativePart_data_url world_offline resume_pdf
           "data:application/pdf;base64" "JVBERi0x" []
           eq_refl eq_refl eq_refl).
Defined.

(** X3: when the read result has a second comma, [data] is only the text
    between the first two commas: what follows is dropped, without an
    error. *)
Theorem fileToGenerativePart_second_comma
    (W : World) (file : File) (prefix payload tail : string)
    (t : list Event) :
  no_comma prefix = true →
  no_comma payload = true →
  FileReader_result W file =
    inr (Some (prefix +:+ "," +:+ payload +:+ "," +:+ tail)) →
  fileToGenerativePart W file t =
  (t ++ [ReadAsDataURL file],
   Return (InlineData (Some payload) (file_type file))).
Proof.
  intros Hprefix Hpayload Hread.
  rewrite fileToGenerativePart_run, Hread.
  rewrite (split_comma_prefix _ _ Hprefix).
  rewrite (split_comma_prefix _ _ Hpayload). reflexivity.
Qed.

Lemma fileToGenerativePart_second_comma_witness :
  run (fileToGenerativePart
         (sample_world (Some "key") (Some "data:text/plain,a,b")
            (inl network_error)) resume_pdf) =
  ([ReadAsDataURL resume_pdf], Return (InlineData (Some "a") "application/pdf")).
Proof.
  exact (fileToGenerativePart_second_comma
           (sample_world (Some "key") (Some "data:text/plain,a,b")
              (inl network_error)) resume_pdf
           "data:text/plain" "a" "b" [] eq_refl eq_refl eq_refl).
Defined.

(** With a credential and a completed read, [parseResume] makes at most one
    request, the one carrying the encoded file; it is made unless the call
    throws before it. *)
Lemma parseResume_requests
    (W : World) (file : File) (key url : string) :
  credential W = Some key →
  FileReader_result W file = inr (Some url) →
  let request :=
    resume_request (InlineData (split_comma url !! 1%nat) (file_type file))
      resume_prompt in
  requests (fst (run (parseResume W file))) =
  if request_made W (GoogleGenerativeAI key) request then [request] else [].
Proof.
  intros Hkey Hread request. unfold run.
  rewrite (parseResume_with_key W file key url [] Hkey Hread).
  fold request. unfold request_event, request_made.
  destruct (generateContent W (GoogleGenerativeAI key) request)
    as [e|response].
  { by destruct (throws_after_request W (GoogleGenerativeAI key) request). }
  repeat case_match; reflexivity.
Qed.

(** X4: a read result without a comma is not an error: the encoder resolves
    with [data] undefined, and [parseResume] goes on to the model call with
    that part: the request, made unless the call throws before it, carries
    [data] undefined. *)
Theorem parseResume_sends_undefined_data
    (W : World) (file : File) (key result : string) :
  credential W = Some key →
  no_comma result = true →
  FileReader_result W file = inr (Some result) →
  let request :=
    resume_request (InlineData None (file_type file)) resume_prompt in
  (∀ t, fileToGenerativePart W file t =
        (t ++ [ReadAsDataURL file],
         Return (InlineData None (file_type file)))) ∧
  requests (fst (run (parseResume W file))) =
    (if request_made W (GoogleGenerativeAI key) request
     then [request] else []) ∧
  (∀ response,
     generateContent W (GoogleGenerativeAI key) request = inr response →
     requests (fst (run (parseResume W file))) = [request]).
Proof.
  intros Hkey Hcomma Hread request.
  assert (Hdata : split_comma result !! 1%nat = None)
    by (rewrite (split_comma_no_comma _ Hcomma); reflexivity).
  assert (Hrequests :
    requests (fst (run (parseResume W file))) =
    if request_made W (GoogleGenerativeAI key) request
    then [request] else []).
  { rewrite (parseResume_requests W file key result Hkey Hread).
    cbv zeta. rewrite Hdata. reflexivity. }
  split; [|split].
  - intros t. rewrite fileToGenerativePart_run, Hread, Hdata. reflexivity.
  - exact Hrequests.
  - intros response Hresponse. rewrite Hrequests.
    unfold request_made. by rewrite Hresponse.
Qed.

Lemma parseResume_sends_undefined_data_witness :
  requests (fst (run (parseResume
                        (sample_world (Some "key") (Some "data:")
                           (inl network_error)) resume_pdf))) =
  [resume_request (InlineData None "application/pdf") resume_prompt].
Proof.
  exact (proj1 (proj2 (parseResume_sends_undefined_data
                         (sample_world (Some "key") (Some "data:")
                            (inl network_error)) resume_pdf "key" "data:"
                         eq_refl eq_refl eq_refl))).
Defined.

(** X5: when the read ends with a [null] result, the encoder's promise is
    never settled: [fileToGenerativePart] and, with a credential,
    [parseResume] neither resolve nor reject; no request is made and nothing
    is logged. *)
Theorem parseResume_pending_when_read_fails
    (W : World) (file : File) (key : string) (t : list Event) :
  credential W = Some key →
  FileReader_result W file = inr None →
  fileToGenerativePart W file t = (t ++ [ReadAsDataURL file], Pending) ∧
  parseResume W file t = (t ++ [ReadAsDataURL file], Pending) ∧
  (∀ result, snd (parseResume W file t) ≠ Return result) ∧
  (∀ e, snd (parseResume W file t) ≠ Throw e).
Proof.
  intros Hkey Hread.
  rewrite fileToGenerativePart_run, Hread.
  rewrite (parseResume_read_error W file key t Hkey Hread).
  repeat split; discriminate.
Qed.

Lemma parseResume_pending_when_read_fails_witness :
  run (parseResume world_read_error resume_pdf) =
  ([ReadAsDataURL resume_pdf], Pending).
Proof.
  exact (proj1 (proj2 (parseResume_pending_when_read_fails
                         world_read_error resume_pdf "key" []
                         eq_refl eq_refl))).
Defined.

(** ** Resume ingestion: requests and the mapped object *)

(** X6: with a credential, [parseResume] makes at most one request: the one
    carrying the encoded file, made unless the call throws before it (always
    when a response comes back), and none when the reader throws or the read
    fails: there is no second attempt. *)
Theorem parseResume_at_most_one_request
    (W : World) (file : File) (key : string) :
  credential W = Some key →
  requests (fst (run (parseResume W file))) =
    match FileReader_result W file with
    | inr (Some url) =>
        let request :=
          resume_request
            (InlineData (split_comma url !! 1%nat) (file_type file))
            resume_prompt in
        if request_made W (GoogleGenerativeAI key) request
        then [request] else []
    | _ => []
    end ∧
  (length (requests (fst (run (parseResume W file)))) ≤ 1)%nat.
Proof.
  intros Hkey.
  destruct (FileReader_result W file) as [e|[url|]] eqn:Hread.
  - unfold run.
    rewrite (parseResume_read_throws W file key e [] Hkey Hread).
    split; [reflexivity|simpl; lia].
  - rewrite (parseResume_requests W file key url Hkey Hread). cbv zeta.
    split; [reflexivity|]. case_match; simpl; lia.
  - unfold run.
    rewrite (parseResume_read_error W file key [] Hkey Hread).
    split; [reflexivity|simpl; lia].
Qed.

Lemma parseResume_at_most_one_request_witness :
  requests (fst (run (parseResume world_resume resume_pdf))) =
  [resume_request (InlineData (Some "JVBERi0x") "application/pdf")
     resume_prompt].
Proof.
  exact (proj1 (parseResume_at_most_one_request
                  world_resume resume_pdf "key" eq_refl)).
Defined.

Lemma resume_profile_dom (data : JSValue) :
  dom (resume_profile data) = list_to_set resume_keys.
Proof.
  unfold resume_profile, resume_keys. simpl.
  rewrite !dom_insert_L, dom_empty_L. set_solver.
Qed.

Lemma resume_profile_copied (data : JSValue) (key : string) :
  key ∈ copied_keys → resume_profile data !! key = Some (prop data key).
Proof.
  unfold copied_keys. intros Hkey.
  repeat (apply elem_of_cons in Hkey as [->|Hkey]; [reflexivity|]).
  by apply elem_of_nil in Hkey.
Qed.

(** X7: for a document other than [null], [parseResume] resolves, logging
    nothing, with an object of exactly six keys; apart from the country,
    each holds the document's property as it is (also when it is falsy or
    of another type), and is [undefined] when the document lacks it.  A
    document that is not an object (a number, a string, an array) gives six
    [undefined] fields, not the empty object. *)
Theorem parseResume_mapped_object
    (W : World) (file : File) (key url : string) (response : Response)
    (response_text : string) (data : JSValue) (t : list Event) :
  credential W = Some key →
  FileReader_result W file = inr (Some url) →
  let request :=
    resume_request (InlineData (split_comma url !! 1%nat) (file_type file))
      resume_prompt in
  generateContent W (GoogleGenerativeAI key) request = inr response →
  truthy_string (text response) = Some response_text →
  JSON_parse W response_text = inr data →
  data ≠ JNull → data ≠ JUndefined →
  ∃ result : gmap string JSValue,
    parseResume W file t =
      (t ++ [ReadAsDataURL file; GenerateContent request], Return result) ∧
    dom result = list_to_set resume_keys ∧
    (∀ k v, k ∈ copied_keys → getProp data k = inr v →
       result !! k = Some v) ∧
    (∀ props k, k ∈ copied_keys → data = JObj props → props !! k = None →
       result !! k = Some JUndefined) ∧
    ((∀ props, data ≠ JObj props) →
     ∀ k, k ∈ resume_keys → result !! k = Some JUndefined).
Proof.
  intros Hkey Hread request Houtcome Htext Hparse Hnull Hundefined.
  rewrite (parseResume_with_key W file key url t Hkey Hread).
  fold request. rewrite Houtcome, Htext, Hparse.
  destruct (getProp_throws_or_not data) as [Hok|[base Hthrow]].
  2:{ specialize (Hthrow "name"). destruct data; try discriminate;
      contradiction. }
  rewrite Hok. exists (resume_profile data).
  split; [reflexivity|]. split; [apply resume_profile_dom|].
  split; [|split].
  - intros k v Hk Hget. rewrite (resume_profile_copied data k Hk).
    rewrite Hok in Hget. congruence.
  - intros props k Hk -> Hnone. rewrite (resume_profile_copied _ k Hk).
    unfold prop. simpl. by rewrite Hnone.
  - intros Hobject k Hk.
    assert (Hprop : ∀ k', prop data k' = JUndefined).
    { intros k'. unfold prop.
      destruct data; try reflexivity; try contradiction.
      by destruct (Hobject props). }
    assert (Hcopied : ∀ k', k' ∈ copied_keys →
                      resume_profile data !! k' = Some JUndefined)
      by (intros k' Hk'; rewrite (resume_profile_copied data k' Hk');
          by rewrite Hprop).
    unfold resume_keys in Hk.
    apply elem_of_cons in Hk as [->|Hk];
      [apply Hcopied; unfold copied_keys; repeat constructor|].
    apply elem_of_cons in Hk as [->|Hk];
      [rewrite resume_profile_country, Hprop; reflexivity|].
    apply Hcopied. unfold copied_keys. by constructor.
Qed.

Lemma parseResume_mapped_object_witness :
  ∃ result : gmap string JSValue,
    snd (run (parseResume world_resume resume_pdf)) = Return result ∧
    dom result = list_to_set resume_keys ∧
    result !! "name" = Some (JStr "A") ∧
    result !! "englishScore" = Some JUndefined.
Proof.
  destruct (parseResume_mapped_object
              world_resume resume_pdf "key" data_url
              {| text := Some resume_json |} resume_json
              (JObj resume_data) []
              eq_refl eq_refl eq_refl eq_refl eq_refl)
    as (result & Hrun & Hdom & Hcopy & Habsent & _); [discriminate..|].
  exists result. split; [unfold run; by rewrite Hrun|].
  split; [exact Hdom|]. split.
  - apply Hcopy; [unfold copied_keys; repeat constructor|reflexivity].
  - apply (Habsent resume_data);
      [unfold copied_keys; repeat constructor|reflexivity|reflexivity].
Defined.

(** X8: a response text that parses to [null] does not reach the mapping:
    reading [data.name] throws, the [TypeError] is logged, and the empty
    object is returned, after the one request. *)
Theorem parseResume_null_document_is_logged
    (W : World) (file : File) (key url : string) (response : Response)
    (response_text : string) (t : list Event) :
  credential W = Some key →
  FileReader_result W file = inr (Some url) →
  let request :=
    resume_request (InlineData (split_comma url !! 1%nat) (file_type file))
      resume_prompt in
  generateContent W (GoogleGenerativeAI key) request = inr response →
  truthy_string (text response) = Some response_text →
  JSON_parse W response_text = inr JNull →
  parseResume W file t =
  (t ++ [ReadAsDataURL file; GenerateContent request;
         resume_error_log (TypeError_read "null" "name")],
   Return ∅).
Proof.
  intros Hkey Hread request Houtcome Htext Hparse.
  rewrite (parseResume_with_key W file key url t Hkey Hread).
  fold request. rewrite Houtcome, Htext, Hparse. simpl.
  by rewrite <- app_assoc.
Qed.

Lemma parseResume_null_document_is_logged_witness :
  snd (run (parseResume
              (sample_world (Some "key") (Some data_url)
                 (inr {| text := Some "null" |})) resume_pdf)) =
  Return ∅.
Proof.
  exact (f_equal snd
           (parseResume_null_document_is_logged
              (sample_world (Some "key") (Some data_url)
                 (inr {| text := Some "null" |})) resume_pdf "key" data_url
              {| text := Some "null" |} "null" []
              eq_refl eq_refl eq_refl eq_refl eq_refl)).
Defined.

(** ** Profile analysis: logging, inputs and composition *)

(** X9: with a credential, every fallback of [analyzeProfile] is preceded by
    exactly one console line that carries the cause (the thrown error, the
    parse error, or [Error("No response returned")] for a response without
    text), and a parsed result is returned with nothing logged; the request,
    when one was made, comes before the console line. *)
Theorem analyzeProfile_logs_the_cause
    (W : World) {UserType : Type} `{UserTypeEnum UserType}
    (profile : UserProfile) (userType : UserType)
    (key : string) (t : list Event) :
  credential W = Some key →
  let request := analysis_request W profile userType in
  let outcome := generateContent W (GoogleGenerativeAI key) request in
  (∀ e, outcome = inl e →
     analyzeProfile W profile userType t =
     (t ++ request_event W (GoogleGenerativeAI key) request ++
      [analysis_error_log e],
      Return fallback)) ∧
  (∀ response, outcome = inr response →
     truthy_string (text response) = None →
     analyzeProfile W profile userType t =
     (t ++ [GenerateContent request;
            analysis_error_log (Error "No response returned")],
      Return fallback)) ∧
  (∀ response response_text e, outcome = inr response →
     truthy_string (text response) = Some response_text →
     JSON_parse W response_text = inl e →
     analyzeProfile W profile userType t =
     (t ++ [GenerateContent request; analysis_error_log e],
      Return fallback)) ∧
  (∀ response response_text parsed, outcome = inr response →
     truthy_string (text response) = Some response_text →
     JSON_parse W response_text = inr parsed →
     analyzeProfile W profile userType t =
     (t ++ [GenerateContent request], Return parsed)).
Proof.
  intros Hkey request outcome.
  rewrite (analyzeProfile_with_key W profile userType key t Hkey).
  fold request. subst outcome.
  split; [|split; [|split]].
  - intros e He. rewrite He. by rewrite <- app_assoc.
  - intros response He Htext. rewrite He, Htext. by rewrite <- app_assoc.
  - intros response response_text e He Htext Hparse.
    rewrite He, Htext, Hparse. by rewrite <- app_assoc.
  - intros response response_text parsed He Htext Hparse.
    rewrite He, Htext, Hparse. reflexivity.
Qed.

Lemma analyzeProfile_logs_the_cause_witness :
  run (analyzeProfile world_no_text applicant SampleStudent) =
    ([GenerateContent
        (analysis_request world_no_text applicant SampleStudent);
      analysis_error_log (Error "No response returned")],
     Return fallback) ∧
  run (analyzeProfile world_no_models applicant SampleStudent) =
    ([analysis_error_log (TypeError_read "undefined" "generateContent")],
     Return fallback).
Proof.
  split.
  - exact (proj1 (proj2 (analyzeProfile_logs_the_cause
                           world_no_text applicant SampleStudent "key" []
                           eq_refl))
             {| text := None |} eq_refl eq_refl).
  - exact (proj1 (analyzeProfile_logs_the_cause
                    world_no_models applicant SampleStudent "key" []
                    eq_refl)
             (TypeError_read "undefined" "generateContent") eq_refl).
Defined.

(** X10: the profile's field of study is not part of the prompt: changing
    it changes neither the request nor anything else [analyzeProfile]
    does. *)
Theorem analyzeProfile_ignores_fieldOfStudy
    (W : World) {UserType : Type} `{UserTypeEnum UserType}
    (profile : UserProfile) (userType : UserType) (field : string)
    (t : list Event) :
  analysis_request W (with_fieldOfStudy profile field) userType =
  analysis_request W profile userType ∧
  analyzeProfile W (with_fieldOfStudy profile field) userType t =
  analyzeProfile W profile userType t.
Proof. split; reflexivity. Qed.

Lemma summary_line_length (W : World) (d : LanguageDetails) :
  (11 ≤ String.length (summary_line W d))%nat.
Proof.
  unfold summary_line. rewrite !string_length_append.
  change (String.length " - Overall:") with 11%nat. lia.
Qed.

(** X11: the English line is [N/A] exactly when the profile has no English
    details: details that are present never render as [N/A], whatever
    their fields hold. *)
Theorem englishInfo_NA_iff_absent (W : World) (profile : UserProfile) :
  englishInfo W profile = "N/A" ↔ languageDetails profile = None.
Proof.
  unfold englishInfo. split.
  - destruct (languageDetails profile) as [lt|]; [|reflexivity].
    intros Heq. pose proof (summary_line_length W lt) as Hlen.
    unfold summary_line in Hlen. rewrite Heq in Hlen. simpl in Hlen. lia.
  - intros ->. reflexivity.
Qed.

Lemma englishInfo_NA_iff_absent_witness :
  englishInfo world_offline applicant_french_lowercase = "N/A".
Proof.
  exact (proj2 (englishInfo_NA_iff_absent
                  world_offline applicant_french_lowercase) eq_refl).
Defined.

(** X12: the French line is [None] exactly when the French details are
    absent or their test type is the sentinel, compared exactly; with any
    other test type the full summary line is rendered. *)
Theorem frenchInfo_None_iff_absent_or_sentinel
    (W : World) (profile : UserProfile) :
  (frenchInfo W profile = "None" ↔
   frenchDetails profile = None ∨
   ∃ fr, frenchDetails profile = Some fr ∧ testType fr = "None") ∧
  (∀ fr, frenchDetails profile = Some fr → testType fr ≠ "None" →
     frenchInfo W profile = summary_line W fr).
Proof.
  unfold frenchInfo. split; [split|].
  - destruct (frenchDetails profile) as [fr|]; [|auto].
    destruct (String.eqb_spec (testType fr) "None") as [Htype|Htype]; simpl.
    + intros _. right. eauto.
    + intros Heq. pose proof (summary_line_length W fr) as Hlen.
      unfold summary_line in Hlen. rewrite Heq in Hlen. simpl in Hlen. lia.
  - intros [->|(fr & -> & ->)]; reflexivity.
  - intros fr -> Htype.
    destruct (String.eqb_spec (testType fr) "None"); [contradiction|].
    reflexivity.
Qed.

Lemma frenchInfo_None_iff_absent_or_sentinel_witness :
  frenchInfo world_offline applicant_english_none = "None" ∧
  frenchInfo world_offline applicant_french_lowercase =
  "none - Overall:5, R:4, W:3, L:2, S:1".
Proof.
  split.
  - apply (proj1 (frenchInfo_None_iff_absent_or_sentinel
                    world_offline applicant_english_none)).
    left. reflexivity.
  - refine (proj2 (frenchInfo_None_iff_absent_or_sentinel
                     world_offline applicant_french_lowercase)
              french_lowercase eq_refl _).
    discriminate.
Defined.

(** What a call appends to the trace, and its completion, do not depend on
    the events before it. *)
Lemma analyzeProfile_appends
    (W : World) {UserType : Type} `{UserTypeEnum UserType}
    (profile : UserProfile) (userType : UserType) (t : list Event) :
  analyzeProfile W profile userType t =
  (t ++ fst (run (analyzeProfile W profile userType)),
   snd (run (analyzeProfile W profile userType))).
Proof.
  unfold run.
  destruct (truthy_string (REACT_APP_GEMINI_API_KEY W)) as [key|] eqn:Hkey.
  - rewrite (analyzeProfile_with_key W profile userType key t Hkey).
    rewrite (analyzeProfile_with_key W profile userType key [] Hkey).
    repeat case_match; simpl; by rewrite <- ?app_assoc.
  - rewrite (analyzeProfile_without_key W profile userType t Hkey).
    rewrite (analyzeProfile_without_key W profile userType [] Hkey).
    reflexivity.
Qed.

(** X13: nothing is kept between calls: with a credential, each of two
    analyses in a row makes its own request, built from its own arguments
    (the same request again for the same arguments), unless its call throws
    before the request; and the second call completes as it would on its
    own. *)
Theorem analyzeProfile_twice
    (W : World) {UserType : Type} `{UserTypeEnum UserType}
    (profile1 profile2 : UserProfile) (userType1 userType2 : UserType)
    (key : string) :
  credential W = Some key →
  let both :=
    run (analyzeProfile W profile1 userType1 ;;
         analyzeProfile W profile2 userType2) in
  requests (fst both) =
    (if request_made W (GoogleGenerativeAI key)
          (analysis_request W profile1 userType1)
     then [analysis_request W profile1 userType1] else []) ++
    (if request_made W (GoogleGenerativeAI key)
          (analysis_request W profile2 userType2)
     then [analysis_request W profile2 userType2] else []) ∧
  snd both = snd (run (analyzeProfile W profile2 userType2)) ∧
  fst both =
    fst (run (analyzeProfile W profile1 userType1)) ++
    fst (run (analyzeProfile W profile2 userType2)).
Proof.
  intros Hkey both.
  assert (Hfirst : ∃ result,
             snd (run (analyzeProfile W profile1 userType1)) = Return result).
  { unfold run.
    rewrite (analyzeProfile_with_key W profile1 userType1 key [] Hkey).
    repeat case_match; eauto. }
  destruct Hfirst as [result Hfirst].
  assert (Hboth : both =
            (fst (run (analyzeProfile W profile1 userType1)) ++
             fst (run (analyzeProfile W profile2 userType2)),
             snd (run (analyzeProfile W profile2 userType2)))).
  { unfold both. unfold run in *. unfold bind.
    destruct (analyzeProfile W profile1 userType1 []) as [t1 c1] eqn:Hrun1.
    simpl in Hfirst. subst c1.
    rewrite (analyzeProfile_appends W profile2 userType2 t1).
    reflexivity. }
  rewrite Hboth. simpl. split; [|split; reflexivity].
  rewrite requests_app.
  rewrite (analyzeProfile_requests W profile1 userType1 key Hkey).
  rewrite (analyzeProfile_requests W profile2 userType2 key Hkey).
  reflexivity.
Qed.

Lemma analyzeProfile_twice_witness :
  requests (fst (run (analyzeProfile world_offline applicant SampleStudent ;;
                      analyzeProfile world_offline applicant SampleStudent))) =
  [analysis_request world_offline applicant SampleStudent;
   analysis_request world_offline applicant SampleStudent].
Proof.
  exact (proj1 (analyzeProfile_twice world_offline applicant applicant
                  SampleStudent SampleStudent "key" eq_refl)).
Defined.

(** X14: the branch taken is visible in the request: for every profile, the
    request for a user type other than [Student] differs from the request
    for [Student], whatever the profile text holds. *)
Theorem analysis_request_shows_user_type
    (W : World) {UserType : Type} `{UserTypeEnum UserType}
    (profile : UserProfile) (userType : UserType) :
  userType ≠ Student →
  analysis_request W profile userType ≠ analysis_request W profile Student.
Proof.
  intros Hother Heq.
  apply (f_equal contents) in Heq.
  unfold analysis_request, contents, analysis_contents, specificInstructions
    in Heq.
  destruct (decide (userType = Student)) as [|_]; [contradiction|].
  destruct (decide (Student = Student)) as [_|]; [|contradiction].
  injection Heq as Hbit. discriminate Hbit.
Qed.

Lemma analysis_request_shows_user_type_witness :
  analysis_request world_offline applicant SampleSkilledWorker ≠
  analysis_request world_offline applicant SampleStudent.
Proof.
  refine (analysis_request_shows_user_type world_offline applicant
            SampleSkilledWorker _).
  discriminate.
Defined.
